(** * Quantum-session: the QR pairing route of [qr.js]

    A shallow embedding of [src/qr.js]: the Express route that opens a
    WhatsApp socket, answers the HTTP request with a QR code, reacts to
    [connection.update] events and timers, sends the welcome messages and
    removes the session folder.

    The JavaScript closures of the route share the variables [qrSent],
    [connectionSuccess], [res], [sock] and the file system; they are the
    fields of one [Session] value that every callback transforms.  A callback
    is written in a small state-and-exception monad so that its text follows
    the source statement by statement. *)

From Stdlib Require Import List String Ascii ZArith Bool Lia Arith.
Import ListNotations.

Open Scope string_scope.
Open Scope list_scope.

(** ** JavaScript values used by the route *)

Module Js.

(** [v && ...], [!v] on a value that is a string or [undefined]/[null]:
    the empty string and the missing value are falsy. *)
Definition truthy (v : option string) : bool :=
  match v with
  | Some s => negb (s =? EmptyString)%string
  | None => false
  end.

(** [a || b] on such values. *)
Definition or (a b : option string) : option string :=
  if truthy a then a else b.

(** [String.prototype.includes]: [needle] occurs somewhere in [hay]. *)
Fixpoint includes (needle hay : string) : bool :=
  prefix needle hay
  || match hay with
     | EmptyString => false
     | String _ rest => includes needle rest
     end.

(** A value given to [throw] or a rejection reason: [null]/[undefined], or
    an object whose [message] is a string or is missing. *)
Inductive Error : Type :=
| Nullish
| Obj (message : option string).

(** The result of an awaited promise. *)
Inductive Settled (A : Type) : Type :=
| Fulfilled (a : A)
| Rejected (e : Error).
Arguments Fulfilled {A} a.
Arguments Rejected {A} e.

Definition newline : string := String "010" EmptyString.

End Js.

(** ** Template literals

    The session id is a template literal.  [cook] reads the raw text of a
    template the way the language does: a backslash escapes the next
    character, [${] opens a substitution that runs to the next [}], anything
    else is literal text. *)

Module Template.

Inductive Part : Type :=
| Chr (c : ascii)
| Subst (expr : string).

Definition unescape (c : ascii) : ascii :=
  if Ascii.eqb c "n" then "010"%char
  else if Ascii.eqb c "t" then "009"%char
  else if Ascii.eqb c "r" then "013"%char
  else c.

Fixpoint cook (inSubst : option string) (raw : string) : list Part :=
  match raw with
  | EmptyString => []
  | String c rest =>
      match inSubst with
      | Some acc =>
          if Ascii.eqb c "}" then Subst acc :: cook None rest
          else cook (Some (acc ++ String c EmptyString)%string) rest
      | None =>
          match rest with
          | String d rest' =>
              if Ascii.eqb c "\" then Chr (unescape d) :: cook None rest'
              else if Ascii.eqb c "$" && Ascii.eqb d "{" then cook (Some EmptyString) rest'
              else Chr c :: cook None rest
          | EmptyString => [Chr c]
          end
      end
  end.

(** [eval] gives the string value of a substituted expression. *)
Fixpoint render (eval : string -> string) (ps : list Part) : string :=
  match ps with
  | [] => EmptyString
  | Chr c :: ps' => String c (render eval ps')
  | Subst e :: ps' => (eval e ++ render eval ps')%string
  end.

Definition substitutions (ps : list Part) : list string :=
  flat_map (fun p => match p with Subst e => [e] | Chr _ => [] end) ps.

End Template.

(** ** The file system: the set of paths that exist

    Paths are compared as the route spells them (it builds every path from
    [./qr_sessions], the session id and [creds.json]).  The operations are
    those of a disk on which they succeed: a removal or creation that the
    operating system refuses (permissions, a busy file) is not modelled.
    What is proved below is proved of runs in which the calls of [fs] return
    normally. *)

Module Fs.

Definition t : Type := list string.

Definition existsSync (p : string) (fs : t) : bool :=
  existsb (String.eqb p) fs.

(** [q] is [dir] itself or lies below it. *)
Definition within (dir q : string) : bool :=
  (q =? dir)%string || prefix (dir ++ "/") q.

(** [fs.rmSync(dir, { recursive: true, force: true })]. *)
Definition rmSync (dir : string) (fs : t) : t :=
  filter (fun q => negb (within dir q)) fs.

(** [fs.mkdirSync(p, { recursive: true })]: no error when [p] exists. *)
Definition mkdirSync (p : string) (fs : t) : t :=
  if existsSync p fs then fs else fs ++ [p].

Definition writeFileSync (p : string) (fs : t) : t :=
  if existsSync p fs then fs else fs ++ [p].

End Fs.

(** ** Session id and session directory ([qr.js], lines 28-29) *)

(** The raw text between the backquotes of line 28. *)
Definition sessionId_template : string :=
  "session_\( {Date.now()}_ \){Math.random().toString(36).substr(2, 9)}".

(** [eval] stands for the evaluation of the substituted expressions at the
    time of the request: it is where [Date.now()] and [Math.random()] enter. *)
Definition sessionId (eval : string -> string) : string :=
  Template.render eval (Template.cook None sessionId_template).

Definition sessionDir_of (id : string) : string :=
  ("./qr_sessions/" ++ id)%string.

(** ** Data of a session *)

(** What [res.json] is given, with the status set by [res.status]. *)
Inductive Body : Type :=
| QrBody (success : bool) (qr sessionId message : string) (instructions : list string)
| ErrorBody (error : string).

Record Response : Type := { status : Z; body : Body }.

Definition isQr (r : Response) : bool :=
  match body r with QrBody _ _ _ _ _ => true | ErrorBody _ => false end.

(** The [content] argument of [sock.sendMessage]. *)
Inductive Payload : Type :=
| Document (path mimetype fileName : string)
| Image (url caption : string)
| Audio (url mimetype : string) (ptt : bool) (waveform : list Z)
| Text (text : string).

(** The fields of a [connection.update] event that the handler reads;
    [statusCode] is [lastDisconnect?.error?.output?.statusCode]. *)
Inductive Connection : Type := Connecting | Open | Close.

Record Update : Type := {
  qr : option string;
  connection : option Connection;
  statusCode : option Z
}.

(** The callbacks given to [setTimeout]. *)
Inductive TimerCb : Type :=
| CbDelayedWelcome   (* line 106 *)
| CbReconnect        (* line 128 *)
| CbTimeout          (* lines 136-144 *)
| CbCleanup.         (* lines 207-210 *)

(** Lines written by [console.log] and [console.error]. *)
Inductive Log : Type :=
| LogSessionRemoved (path : string)
| LogTerminalQr (code : string)
| LogNewQr
| LogQrFailed (err : Js.Error)
| LogConnected
| LogJidDelay
| LogClosed (reason : option Z)
| LogLoggedOut
| LogInitError (err : Js.Error)
| LogNoJid
| LogSessionFileSent (path : string)
| LogAllSent
| LogWelcomeFailed (err : Js.Error)
| LogUnhandled (err : Js.Error).

(** The socket made by [makeWASocket]: [user] is [sock.user?.id], [outbox]
    records the calls of [sock.sendMessage], [wsConnects] those of
    [sock.ws.connect], [ended] whether [sock.end] was called. *)
Record Socket : Type := {
  user : option string;
  ended : bool;
  wsConnects : nat;
  outbox : list (string * Payload)
}.

(** The variables shared by the closures of one request.  [resWrites] lists
    every call of [res.json] in order: the first is the response the client
    receives and sets [res.headersSent]; [rendered] lists the codes given to
    [QRCode.toDataURL]; [awaiting] holds the handler invocations suspended at
    [await QRCode.toDataURL]; [attached] says that the handlers and the
    60-second timer were registered; [crashed] that a timer callback threw. *)
Record Session : Type := {
  sId : string;
  sessionDir : string;
  attached : bool;
  qrSent : bool;
  connectionSuccess : bool;
  resWrites : list Response;
  fs : Fs.t;
  sock : Socket;
  timers : list (TimerCb * Z);
  console : list Log;
  awaiting : list Update;
  rendered : list string;
  crashed : bool
}.

Definition headersSent (s : Session) : bool :=
  match resWrites s with [] => false | _ :: _ => true end.

Definition set_attached (b : bool) (s : Session) : Session :=
  {| sId := sId s; sessionDir := sessionDir s; attached := b;
     qrSent := qrSent s; connectionSuccess := connectionSuccess s;
     resWrites := resWrites s; fs := fs s; sock := sock s;
     timers := timers s; console := console s; awaiting := awaiting s;
     rendered := rendered s; crashed := crashed s |}.

Definition set_qrSent (b : bool) (s : Session) : Session :=
  {| sId := sId s; sessionDir := sessionDir s; attached := attached s;
     qrSent := b; connectionSuccess := connectionSuccess s;
     resWrites := resWrites s; fs := fs s; sock := sock s;
     timers := timers s; console := console s; awaiting := awaiting s;
     rendered := rendered s; crashed := crashed s |}.

Definition set_connectionSuccess (b : bool) (s : Session) : Session :=
  {| sId := sId s; sessionDir := sessionDir s; attached := attached s;
     qrSent := qrSent s; connectionSuccess := b;
     resWrites := resWrites s; fs := fs s; sock := sock s;
     timers := timers s; console := console s; awaiting := awaiting s;
     rendered := rendered s; crashed := crashed s |}.

Definition set_resWrites (w : list Response) (s : Session) : Session :=
  {| sId := sId s; sessionDir := sessionDir s; attached := attached s;
     qrSent := qrSent s; connectionSuccess := connectionSuccess s;
     resWrites := w; fs := fs s; sock := sock s;
     timers := timers s; console := console s; awaiting := awaiting s;
     rendered := rendered s; crashed := crashed s |}.

Definition set_fs (f : Fs.t) (s : Session) : Session :=
  {| sId := sId s; sessionDir := sessionDir s; attached := attached s;
     qrSent := qrSent s; connectionSuccess := connectionSuccess s;
     resWrites := resWrites s; fs := f; sock := sock s;
     timers := timers s; console := console s; awaiting := awaiting s;
     rendered := rendered s; crashed := crashed s |}.

Definition set_sock (k : Socket) (s : Session) : Session :=
  {| sId := sId s; sessionDir := sessionDir s; attached := attached s;
     qrSent := qrSent s; connectionSuccess := connectionSuccess s;
     resWrites := resWrites s; fs := fs s; sock := k;
     timers := timers s; console := console s; awaiting := awaiting s;
     rendered := rendered s; crashed := crashed s |}.

Definition set_timers (t : list (TimerCb * Z)) (s : Session) : Session :=
  {| sId := sId s; sessionDir := sessionDir s; attached := attached s;
     qrSent := qrSent s; connectionSuccess := connectionSuccess s;
     resWrites := resWrites s; fs := fs s; sock := sock s;
     timers := t; console := console s; awaiting := awaiting s;
     rendered := rendered s; crashed := crashed s |}.

Definition set_console (c : list Log) (s : Session) : Session :=
  {| sId := sId s; sessionDir := sessionDir s; attached := attached s;
     qrSent := qrSent s; connectionSuccess := connectionSuccess s;
     resWrites := resWrites s; fs := fs s; sock := sock s;
     timers := timers s; console := c; awaiting := awaiting s;
     rendered := rendered s; crashed := crashed s |}.

Definition set_awaiting (a : list Update) (s : Session) : Session :=
  {| sId := sId s; sessionDir := sessionDir s; attached := attached s;
     qrSent := qrSent s; connectionSuccess := connectionSuccess s;
     resWrites := resWrites s; fs := fs s; sock := sock s;
     timers := timers s; console := console s; awaiting := a;
     rendered := rendered s; crashed := crashed s |}.

Definition set_rendered (r : list string) (s : Session) : Session :=
  {| sId := sId s; sessionDir := sessionDir s; attached := attached s;
     qrSent := qrSent s; connectionSuccess := connectionSuccess s;
     resWrites := resWrites s; fs := fs s; sock := sock s;
     timers := timers s; console := console s; awaiting := awaiting s;
     rendered := r; crashed := crashed s |}.

Definition set_crashed (b : bool) (s : Session) : Session :=
  {| sId := sId s; sessionDir := sessionDir s; attached := attached s;
     qrSent := qrSent s; connectionSuccess := connectionSuccess s;
     resWrites := resWrites s; fs := fs s; sock := sock s;
     timers := timers s; console := console s; awaiting := awaiting s;
     rendered := rendered s; crashed := b |}.

(** ** The monad of a callback: state and JavaScript exceptions *)

Inductive Completion (A : Type) : Type :=
| Normal (a : A)
| Thrown (e : Js.Error).
Arguments Normal {A} a.
Arguments Thrown {A} e.

Definition M (A : Type) : Type := Session -> Completion A * Session.

Definition ret {A} (a : A) : M A := fun s => (Normal a, s).

Definition bind {A B} (m : M A) (k : A -> M B) : M B :=
  fun s =>
    match m s with
    | (Normal a, s') => k a s'
    | (Thrown e, s') => (Thrown e, s')
    end.

Definition throw {A} (e : Js.Error) : M A := fun s => (Thrown e, s).

(** [try { m } catch (err) { h err }]: what [m] changed before it threw stays. *)
Definition tryCatch {A} (m : M A) (h : Js.Error -> M A) : M A :=
  fun s =>
    match m s with
    | (Normal a, s') => (Normal a, s')
    | (Thrown e, s') => h e s'
    end.

Definition gets {A} (f : Session -> A) : M A := fun s => (Normal (f s), s).

Definition modify (f : Session -> Session) : M unit := fun s => (Normal tt, f s).

(** [if (c) { m }] *)
Definition when (c : bool) (m : M unit) : M unit := if c then m else ret tt.

Definition exec {A} (m : M A) (s : Session) : Session := snd (m s).

Declare Scope js_scope.
Delimit Scope js_scope with js.
Notation "x <- m ;; k" := (bind m (fun x => k))
  (at level 61, m at next level, right associativity) : js_scope.
Notation "m ;; k" := (bind m (fun _ => k))
  (at level 61, right associativity) : js_scope.
Open Scope js_scope.

Arguments headersSent s /.

(** ** Primitive operations on the shared objects *)

Definition log (l : Log) : M unit :=
  modify (fun s => set_console (console s ++ [l]) s).

(** [res.status(code).json(body)].  The call is recorded; on a response whose
    headers were already sent Express raises [ERR_HTTP_HEADERS_SENT]. *)
Definition headersSentError : Js.Error :=
  Js.Obj (Some "Cannot set headers after they are sent to the client").

Definition res_json (code : Z) (b : Body) : M unit :=
  fun s =>
    let s' := set_resWrites (resWrites s ++ [{| status := code; body := b |}]) s in
    if headersSent s then (Thrown headersSentError, s') else (Normal tt, s').

(** The status a call of [res.json] without [res.status] carries:
    [res.statusCode] starts at 200 and is changed by [res.status] only,
    which the route always follows by [json], so it is the status of the
    last call made, or 200 when there was none. *)
Definition resStatus (s : Session) : Z :=
  last (map status (resWrites s)) 200%Z.

Arguments resStatus : simpl never.

(** [res.json(body)] *)
Definition res_json_current (b : Body) : M unit :=
  fun s => res_json (resStatus s) b s.

(** [removeSession] (lines 19-24). *)
Definition removeSession (path : string) : M unit :=
  present <- gets (fun s => Fs.existsSync path (fs s)) ;;
  when present
    (modify (fun s => set_fs (Fs.rmSync path (fs s)) s) ;;
     log (LogSessionRemoved path)).

Definition setTimeout (cb : TimerCb) (delay : Z) : M unit :=
  modify (fun s => set_timers (timers s ++ [(cb, delay)]) s).

(** [sock?.end()] *)
Definition sock_end : M unit :=
  modify (fun s =>
    set_sock {| user := user (sock s); ended := true;
                wsConnects := wsConnects (sock s); outbox := outbox (sock s) |} s).

(** [sock.ws.connect()] *)
Definition ws_connect : M unit :=
  modify (fun s =>
    set_sock {| user := user (sock s); ended := ended (sock s);
                wsConnects := S (wsConnects (sock s)); outbox := outbox (sock s) |} s).

Definition credsPath_of (dir : string) : string := (dir ++ "/creds.json")%string.

(** ** The fixed welcome payloads (lines 173-202) *)

Definition welcomeCaption : string :=
  String.concat Js.newline
    [ "🔥 *Welcome to LoftBase MD V2.0 – The King is Here!* 🔥"; EmptyString;
      "🎉 Congratulations! You just joined the most powerful bot family!";
      "🚀 We are now *CONNECTED FOREVER* – I’m with you 24/7"; EmptyString;
      "💡 *What’s New in V2.0?*";
      "✦ Lightning-fast AI chat";
      "✦ Brand new fun & useful commands";
      "✦ All bugs destroyed!"; EmptyString;
      "🎵 Enjoy this vibe while we start our journey together 🎶"; EmptyString;
      "👑 *We are connected forever. Let’s rule WhatsApp together!*" ].

Definition closingText : string :=
  String.concat Js.newline
    [ "💜 *We are now connected forever!* 💜"; EmptyString;
      "Enjoy the bot to the maximum, but *never share* the session file with anyone – keep your account safe 🙏"; EmptyString;
      "┌┤✑  Thank you for using LoftBase MD V2.0";
      "│©2026 ʟᴏꜰᴛ Qᴜᴀɴᴛᴜᴍ™";
      "└─────────────────┈ ⳹"; EmptyString;
      "💬 Need help? Just type: *.menu* or *.help* anytime" ].

Definition credsDocument (credsPath : string) : Payload :=
  Document credsPath "application/json" "creds.json".

Definition welcomeImage : Payload := Image "./media/loft.jpg" welcomeCaption.

Definition welcomeAudio : Payload :=
  Audio "./media/roft.mp3" "audio/mp4" false
    [10; 40; 80; 100; 90; 70; 90; 50; 80; 30; 90; 20; 100]%Z.

Definition finalMessage : Payload := Text closingText.

Definition qrMessage : string := "Scan this QR code with WhatsApp → Linked Devices".

Definition qrInstructions : list string :=
  [ "Open WhatsApp on your phone";
    "Go to Settings → Linked Devices";
    "Tap 'Link a Device'";
    "Point your camera at this QR code" ].

(** ** The process-wide handler (lines 218-223) *)

(** [err?.message?.includes?.(needle)] as a condition: a broken chain gives
    [undefined], which is falsy. *)
Definition messageIncludes (err : Js.Error) (needle : string) : bool :=
  match err with
  | Js.Obj (Some m) => Js.includes needle m
  | Js.Obj None => false
  | Js.Nullish => false
  end.

Definition discarded (err : Js.Error) : bool :=
  messageIncludes err "rate-overlimit"
  || messageIncludes err "conflict"
  || messageIncludes err "timed out".

Definition unhandledRejection (err : Js.Error) : M unit :=
  if discarded err then ret tt else log (LogUnhandled err).

Definition value (v : option string) : string :=
  match v with Some s => s | None => EmptyString end.

(** [reason || 'Unknown'] in the log line of line 116: [None] prints as
    [Unknown]. *)
Definition orUnknown (reason : option Z) : option Z :=
  match reason with
  | Some 0%Z => None
  | _ => reason
  end.

Definition remove_nth {A} (k : nat) (l : list A) : list A :=
  firstn k l ++ skipn (S k) l.

(** ** Events of a session *)

(** What can happen to a session after the route returned: the socket
    emits an event, the promise a handler waits for settles, the library
    learns the paired account, a timer fires. *)
Inductive Event : Type :=
| ConnectionUpdate (u : Update)
| QrSettled
| CredsUpdate
| UserKnown (id : option string)
| TimerFires (k : nat).

(** ** The route and its callbacks *)

Section Route.

(** What the libraries the route calls give back.  [loggedOut] is
    [DisconnectReason.loggedOut]; [toDataURL] is how the promise of
    [QRCode.toDataURL(qr, ...)] settles; [sendOutcome n] is how the call
    number [n] of [sock.sendMessage] on this socket settles. *)
Variable loggedOut : Z.
Variable jidNormalizedUser : string -> string.
Variable toDataURL : string -> Js.Settled string.
Variable sendOutcome : nat -> Js.Settled unit.

(** [await sock.sendMessage(jid, content)] *)
Definition sendMessage (jid : string) (content : Payload) : M unit :=
  fun s =>
    let k := sock s in
    let s' := set_sock {| user := user k; ended := ended k;
                          wsConnects := wsConnects k;
                          outbox := outbox k ++ [(jid, content)] |} s in
    match sendOutcome (List.length (outbox k)) with
    | Js.Fulfilled _ => (Normal tt, s')
    | Js.Rejected e => (Thrown e, s')
    end.

(** [sock.user?.id ? jidNormalizedUser(sock.user.id) : null] *)
Definition resolveJid (k : Socket) : option string :=
  if Js.truthy (user k) then Some (jidNormalizedUser (value (user k))) else None.

(** [sendWelcomeMessages] (lines 156-215). *)
Definition sendWelcomeMessages (dir : string) (fallbackJid : option string) : M unit :=
  tryCatch
    (k <- gets sock ;;
     let userJid := Js.or fallbackJid (resolveJid k) in
     if negb (Js.truthy userJid) then log LogNoJid
     else
       let jid := value userJid in
       let credsPath := credsPath_of dir in
       present <- gets (fun s => Fs.existsSync credsPath (fs s)) ;;
       when present
         (sendMessage jid (credsDocument credsPath) ;;
          log (LogSessionFileSent credsPath)) ;;
       sendMessage jid welcomeImage ;;
       sendMessage jid welcomeAudio ;;
       sendMessage jid finalMessage ;;
       log LogAllSent ;;
       setTimeout CbCleanup 15000)
    (fun err => log (LogWelcomeFailed err)).

(** Lines 70-96, from the point where the awaited promise settles. *)
Definition qrBlock (code : string) : M unit :=
  tryCatch
    (match toDataURL code with
     | Js.Rejected e => throw e
     | Js.Fulfilled qrImage =>
         log (LogTerminalQr code) ;;
         log LogNewQr ;;
         id <- gets sId ;;
         res_json_current (QrBody true qrImage id qrMessage qrInstructions)
     end)
    (fun err =>
       log (LogQrFailed err) ;;
       sent <- gets headersSent ;;
       when (negb sent) (res_json 500 (ErrorBody "Failed to generate QR"))).

(** Lines 99-110. *)
Definition openBranch (u : Update) : M unit :=
  match connection u with
  | Some Open =>
      modify (set_connectionSuccess true) ;;
      log LogConnected ;;
      k <- gets sock ;;
      dir <- gets sessionDir ;;
      let userJid := resolveJid k in
      if negb (Js.truthy userJid)
      then log LogJidDelay ;; setTimeout CbDelayedWelcome 5000
      else sendWelcomeMessages dir userJid
  | _ => ret tt
  end.

(** [reason === DisconnectReason.loggedOut] *)
Definition isLoggedOut (reason : option Z) : bool :=
  match reason with
  | Some r => (r =? loggedOut)%Z
  | None => false
  end.

(** Lines 112-130. *)
Definition closeBranch (u : Update) : M unit :=
  match connection u with
  | Some Close =>
      let reason := statusCode u in
      let shouldReconnect := negb (isLoggedOut reason) in
      log (LogClosed (orUnknown reason)) ;;
      dir <- gets sessionDir ;;
      when (isLoggedOut reason) (log LogLoggedOut ;; removeSession dir) ;;
      ok <- gets connectionSuccess ;;
      sent <- gets headersSent ;;
      when (negb ok && negb sent)
        (res_json 500 (ErrorBody "Connection failed or closed unexpectedly")) ;;
      when shouldReconnect (setTimeout CbReconnect 3000)
  | _ => ret tt
  end.

Definition afterQr (u : Update) : M unit :=
  openBranch u ;; closeBranch u.

(** The [connection.update] handler up to its first suspension: when the
    QR block is entered the flag is set, [QRCode.toDataURL] is called and
    the invocation waits for it; otherwise the handler runs to its end. *)
Definition onConnectionUpdate (u : Update) : M unit :=
  sent <- gets qrSent ;;
  if Js.truthy (qr u) && negb sent
  then
    modify (set_qrSent true) ;;
    modify (fun s => set_rendered (rendered s ++ [value (qr u)]) s) ;;
    modify (fun s => set_awaiting (awaiting s ++ [u]) s)
  else afterQr u.

(** The rest of a suspended invocation. *)
Definition resumeConnectionUpdate (u : Update) : M unit :=
  qrBlock (value (qr u)) ;; afterQr u.

(** Lines 136-144. *)
Definition onTimeout : M unit :=
  ok <- gets connectionSuccess ;;
  sent <- gets qrSent ;;
  when (negb ok && negb sent)
    (res_json 408 (ErrorBody "QR timeout – no scan detected")) ;;
  ok' <- gets connectionSuccess ;;
  when (negb ok')
    (sock_end ;;
     dir <- gets sessionDir ;;
     removeSession dir).

(** Lines 207-210. *)
Definition onCleanup : M unit :=
  dir <- gets sessionDir ;;
  removeSession dir ;;
  sock_end.

Definition timerCallback (cb : TimerCb) : M unit :=
  match cb with
  | CbDelayedWelcome => dir <- gets sessionDir ;; sendWelcomeMessages dir None
  | CbReconnect => ws_connect
  | CbTimeout => onTimeout
  | CbCleanup => onCleanup
  end.

(** [saveCreds], registered on [creds.update] (line 133): the library
    writes [creds.json] into the session folder when the folder exists. *)
Definition saveCreds : M unit :=
  dir <- gets sessionDir ;;
  present <- gets (fun s => Fs.existsSync dir (fs s)) ;;
  when present
    (modify (fun s => set_fs (Fs.writeFileSync (credsPath_of dir) (fs s)) s)).

(** ** The event loop *)

(** An exception that leaves an [async] function rejects its promise and
    reaches the [unhandledRejection] handler. *)
Definition runAsync (m : M unit) (s : Session) : Session :=
  match m s with
  | (Normal _, s') => s'
  | (Thrown e, s') => exec (unhandledRejection e) s'
  end.

(** An exception that leaves a timer callback is uncaught. *)
Definition runTimer (m : M unit) (s : Session) : Session :=
  match m s with
  | (Normal _, s') => s'
  | (Thrown _, s') => set_crashed true s'
  end.

(** One turn of the event loop.  No callback exists before the handlers
    are registered, and none runs after an uncaught exception ended the
    process.  The trace decides which pending timer fires; the delay given
    to [setTimeout] is kept with the callback. *)
Definition step (e : Event) (s : Session) : Session :=
  if crashed s || negb (attached s) then s
  else
    match e with
    | ConnectionUpdate u => runAsync (onConnectionUpdate u) s
    | QrSettled =>
        match awaiting s with
        | [] => s
        | u :: rest => runAsync (resumeConnectionUpdate u) (set_awaiting rest s)
        end
    | CredsUpdate => runAsync saveCreds s
    | UserKnown id =>
        set_sock {| user := id; ended := ended (sock s);
                    wsConnects := wsConnects (sock s);
                    outbox := outbox (sock s) |} s
    | TimerFires k =>
        match nth_error (timers s) k with
        | None => s
        | Some (cb, _) =>
            runTimer (timerCallback cb) (set_timers (remove_nth k (timers s)) s)
        end
    end.

Definition run (t : list Event) (s : Session) : Session :=
  fold_left (fun acc e => step e acc) t s.

(** ** The route (lines 27-153) *)

(** The state after lines 28-39. *)
Definition newSession (eval : string -> string) (fs0 : Fs.t) : Session :=
  let id := sessionId eval in
  let dir := sessionDir_of id in
  let fs1 := if negb (Fs.existsSync "./qr_sessions" fs0)
             then Fs.mkdirSync "./qr_sessions" fs0 else fs0 in
  {| sId := id; sessionDir := dir; attached := false;
     qrSent := false; connectionSuccess := false; resWrites := [];
     fs := Fs.mkdirSync dir fs1;
     sock := {| user := None; ended := false; wsConnects := 0; outbox := [] |};
     timers := []; console := []; awaiting := []; rendered := [];
     crashed := false |}.

(** [init] is how lines 42-60 end: they throw, or the socket exists and
    carries the account of the credentials found in the folder. *)
Definition route (eval : string -> string) (init : Js.Settled (option string))
    (fs0 : Fs.t) : Session :=
  exec
    (tryCatch
       (match init with
        | Js.Rejected e => throw e
        | Js.Fulfilled account =>
            modify (fun s => set_sock {| user := account; ended := false;
                                         wsConnects := 0; outbox := [] |} s) ;;
            modify (set_attached true) ;;
            setTimeout CbTimeout 60000
        end)
       (fun error =>
          log (LogInitError error) ;;
          dir <- gets sessionDir ;;
          removeSession dir ;;
          sent <- gets headersSent ;;
          when (negb sent)
            (res_json 500 (ErrorBody "Failed to start WhatsApp session"))))
    (newSession eval fs0).

End Route.

(** * Notions used by the properties *)

(** What the specification calls a substring. *)
Definition substringOf (needle hay : string) : Prop :=
  exists pre post, hay = (pre ++ needle ++ post)%string.

(** The errors the specification calls known-benign: the message contains
    one of the three fixed substrings. *)
Definition knownBenign (err : Js.Error) : Prop :=
  exists m, err = Js.Obj (Some m)
    /\ (substringOf "rate-overlimit" m
        \/ substringOf "conflict" m
        \/ substringOf "timed out" m).

Definition sameButSockTimersConsole (s s' : Session) : Prop :=
  sId s' = sId s /\ sessionDir s' = sessionDir s /\ attached s' = attached s
  /\ qrSent s' = qrSent s /\ connectionSuccess s' = connectionSuccess s
  /\ resWrites s' = resWrites s /\ fs s' = fs s
  /\ awaiting s' = awaiting s /\ rendered s' = rendered s
  /\ crashed s' = crashed s
  /\ user (sock s') = user (sock s) /\ ended (sock s') = ended (sock s)
  /\ wsConnects (sock s') = wsConnects (sock s).

(** The payloads of one run, in the order of the source; the credential
    document comes first and only when [creds.json] exists. *)
Definition onboardingPayloads (dir : string) (credsPresent : bool) : list Payload :=
  (if credsPresent then [credsDocument (credsPath_of dir)] else [])
  ++ [welcomeImage; welcomeAudio; finalMessage].

(** The delayed onboarding attempts that are still pending. *)
Definition delayedWelcomes (l : list (TimerCb * Z)) : nat :=
  List.length
    (filter (fun t => match fst t with CbDelayedWelcome => true | _ => false end) l).

Definition quiet (s s' : Session) : Prop :=
  sId s' = sId s /\ attached s' = attached s /\ qrSent s' = qrSent s
  /\ rendered s' = rendered s /\ awaiting s' = awaiting s
  /\ (crashed s = true -> crashed s' = true)
  /\ exists errs, resWrites s' = resWrites s ++ errs
                  /\ Forall (fun r => isQr r = false) errs.

Definition qrBody (img id : string) : Body :=
  QrBody true img id qrMessage qrInstructions.

Definition qrFailure : Response :=
  {| status := 500; body := ErrorBody "Failed to generate QR" |}.

(** The code carried by a pairing-code event. *)
Definition codeOf (e : Event) : option string :=
  match e with
  | ConnectionUpdate u => if Js.truthy (qr u) then Some (value (qr u)) else None
  | _ => None
  end.

Definition orElse (f g : option string) : option string :=
  match f with Some q => Some q | None => g end.

(** The code of the first pairing-code event of a trace. *)
Fixpoint firstCode (t : list Event) : option string :=
  match t with
  | [] => None
  | e :: t' => orElse (codeOf e) (firstCode t')
  end.

Definition countQr (l : list Response) : nat := List.length (filter isQr l).

Definition paced (s s' : Session) : Prop :=
  (connectionSuccess s = true -> connectionSuccess s' = true)
  /\ (exists new, outbox (sock s') = outbox (sock s) ++ new
                  /\ Forall (fun m => fst m <> EmptyString) new
                  /\ (new <> [] -> connectionSuccess s' = true))
  /\ (forall d, In (CbDelayedWelcome, d) (timers s') ->
        In (CbDelayedWelcome, d) (timers s) \/ connectionSuccess s' = true).

Definition PairInv (s : Session) : Prop :=
  (outbox (sock s) <> [] -> connectionSuccess s = true)
  /\ (forall d, In (CbDelayedWelcome, d) (timers s) -> connectionSuccess s = true)
  /\ Forall (fun m => fst m <> EmptyString) (outbox (sock s)).

Section Notions.

Variable toDataURL : string -> Js.Settled string.
Variable sendOutcome : nat -> Js.Settled unit.

(** Sending [ps] one after the other, each send awaited: the sends made
    and the error that stopped them, when [n] calls of [sendMessage] came
    before. *)
Fixpoint sendInOrder (n : nat) (ps : list Payload) : list Payload * option Js.Error :=
  match ps with
  | [] => ([], None)
  | p :: ps' =>
      match sendOutcome n with
      | Js.Fulfilled _ =>
          let (made, err) := sendInOrder (S n) ps' in (p :: made, err)
      | Js.Rejected e => ([p], Some e)
      end
  end.

(** What holds of a session when [first] is the first code it was sent. *)
Definition QrInv (first : option string) (s : Session) : Prop :=
  (qrSent s = false -> rendered s = [] /\ awaiting s = [])
  /\ (forall q, In q (rendered s) -> first = Some q)
  /\ (List.length (rendered s) <= 1)%nat
  /\ (countQr (resWrites s) + List.length (awaiting s)
      <= List.length (rendered s))%nat
  /\ (forall a, In a (awaiting s) ->
        Js.truthy (qr a) = true /\ In (value (qr a)) (rendered s))
  /\ (forall r, In r (resWrites s) -> isQr r = true ->
        exists q img, In q (rendered s)
                      /\ toDataURL q = Js.Fulfilled img
                      /\ body r = qrBody img (sId s))
  /\ (attached s = true -> crashed s = false -> qrSent s = false ->
      first = None)
  /\ (forall r rest, resWrites s = r :: rest -> isQr r = true ->
        status r = 200%Z).

End Notions.

(** A concrete environment: [DisconnectReason.loggedOut] is 401 in the
    connection library, identities are already normalised, every code
    renders. *)
Module Example.

Definition loggedOut : Z := 401.

Definition jidNormalizedUser (jid : string) : string := jid.

Definition toDataURL (code : string) : Js.Settled string :=
  Js.Fulfilled ("data:image/png;base64," ++ code)%string.

Definition renderingFails (code : string) : Js.Settled string :=
  Js.Rejected (Js.Obj (Some "Input too long")).

Definition allSent (n : nat) : Js.Settled unit := Js.Fulfilled tt.

(** The first call of [sendMessage] is rejected. *)
Definition connectionClosed : Js.Error := Js.Obj (Some "Connection Closed").

Definition firstSendFails (n : nat) : Js.Settled unit :=
  match n with
  | O => Js.Rejected connectionClosed
  | S _ => Js.Fulfilled tt
  end.

Definition account : string := "255700000000@s.whatsapp.net".

Definition pairingCode (code : string) : Update :=
  {| qr := Some code; connection := None; statusCode := None |}.

Definition opened : Update :=
  {| qr := None; connection := Some Open; statusCode := None |}.

Definition closed (code : Z) : Update :=
  {| qr := None; connection := Some Close; statusCode := Some code |}.

(** A request served on an empty disk, the socket created. *)
Definition start : Session := route (fun e => e) (Js.Fulfilled None) [].

(** The connection is lost (428, connection closed) before any code was
    emitted; the reconnect timer fires after 3 s, the route's timer after
    60 s. *)
Definition closedEarly : list Event :=
  [ConnectionUpdate (closed 428); TimerFires 1; TimerFires 0].

(** The account is known when the connection opens. *)
Definition pairedAtOnce : list Event :=
  [ConnectionUpdate (pairingCode "2@abc"); QrSettled;
   UserKnown (Some account); ConnectionUpdate opened].

End Example.

(** * Tactics for callbacks *)

(** Unfold the monad and the primitive operations, then simplify. *)
Ltac unfold_js :=
  cbv beta iota delta
    [exec runAsync runTimer afterQr bind ret throw tryCatch gets modify when
     log res_json res_json_current removeSession setTimeout sock_end
     ws_connect
     unhandledRejection] in *;
  cbn in *.

(** A test that is not itself built from other tests. *)
Ltac atom b :=
  lazymatch b with
  | context [match _ with _ => _ end] => fail
  | negb _ => fail
  | andb _ _ => fail
  | orb _ _ => fail
  | true => fail
  | false => fail
  | _ => idtac
  end.

(** Split on the tests a callback makes, innermost first. *)
Ltac case_js :=
  repeat (first
            [ match goal with
              | |- context [negb ?b] => atom b; destruct b eqn:?
              end
            | match goal with
              | |- context [andb ?b _] => atom b; destruct b eqn:?
              end
            | match goal with
              | |- context [match ?x with _ => _ end] => atom x; destruct x eqn:?
              end ];
          cbn in *).

Ltac js_auto := unfold_js; case_js; try discriminate; try congruence.

(** Close a goal [quiet s s'] once the callback is unfolded. *)
Ltac quiet_done :=
  unfold quiet; js_auto; repeat split; auto;
  first [ exists []; split; [now rewrite ?app_nil_r | constructor]
        | eexists; split; [reflexivity | repeat constructor] ].

(** Close a goal [paced s s'] for a callback that sends nothing. *)
Ltac paced_done :=
  unfold paced; js_auto;
  (split; [solve [auto | intros; congruence]|]);
  (split;
   [ exists []; rewrite app_nil_r; repeat split; auto; intros; congruence
   | intros d H;
     repeat (apply in_app_or in H; destruct H as [H|H]);
     try (destruct H as [H|[]]; discriminate H);
     auto ]).

(** * Properties *)

(** ** Strings and paths *)

Lemma prefix_append (n h : string) :
  prefix n h = true <-> exists post, h = (n ++ post)%string.
Proof.
  revert h; induction n as [|a n IH]; intros h.
  - split; [intros _; now exists h | intros _; destruct h; reflexivity].
  - destruct h as [|b h]; simpl.
    + split; [discriminate | intros [post H]; discriminate].
    + destruct (ascii_dec a b) as [->|Hab].
      * rewrite IH. split; intros [post H]; exists post.
        -- now rewrite H.
        -- now inversion H.
      * split; [discriminate | intros [post H]; inversion H; subst; now elim Hab].
Qed.


Lemma includes_unfold (n h : string) :
  Js.includes n h =
  prefix n h || match h with
                | EmptyString => false
                | String _ rest => Js.includes n rest
                end.
Proof. destruct h; reflexivity. Qed.

Lemma includes_substringOf (n h : string) :
  Js.includes n h = true <-> substringOf n h.
Proof.
  split.
  - induction h as [|c h IH]; rewrite includes_unfold, orb_true_iff; intros [H|H].
    + apply prefix_append in H as [post H]. now exists EmptyString, post.
    + discriminate.
    + apply prefix_append in H as [post H]. now exists EmptyString, post.
    + destruct (IH H) as (pre & post & E).
      exists (String c pre), post. simpl. now rewrite E.
  - intros (pre & post & E); subst h.
    induction pre as [|c pre IH]; rewrite includes_unfold.
    + assert (P : prefix n (n ++ post) = true) by (apply prefix_append; now exists post).
      simpl. now rewrite P.
    + simpl. rewrite IH. apply orb_true_r.
Qed.

Lemma within_self (dir : string) : Fs.within dir dir = true.
Proof. unfold Fs.within. now rewrite String.eqb_refl. Qed.

Lemma existsSync_In (p : string) (l : Fs.t) :
  Fs.existsSync p l = true <-> In p l.
Proof.
  unfold Fs.existsSync. rewrite existsb_exists. split.
  - intros (q & Hq & E). apply String.eqb_eq in E. now subst.
  - intros H. exists p. split; [assumption | apply String.eqb_refl].
Qed.

(** After [rmSync] the directory is gone. *)
Lemma existsSync_rmSync (dir : string) (l : Fs.t) :
  Fs.existsSync dir (Fs.rmSync dir l) = false.
Proof.
  destruct (Fs.existsSync dir (Fs.rmSync dir l)) eqn:E; [|reflexivity].
  apply existsSync_In in E. unfold Fs.rmSync in E.
  apply filter_In in E as [_ E]. now rewrite within_self in E.
Qed.


Lemma existsSync_mkdirSync (p : string) (l : Fs.t) :
  Fs.existsSync p (Fs.mkdirSync p l) = true.
Proof.
  unfold Fs.mkdirSync. destruct (Fs.existsSync p l) eqn:E; [assumption|].
  apply existsSync_In, in_or_app. right. now left.
Qed.

(** ** The session id *)

(** C2 (the code departs from the claim).  The claim wants a session id
    built from a timestamp and a random suffix, so that no two sessions share
    a directory.  The template literal of line 28 contains no substitution:
    whatever [Date.now()] and [Math.random()] return, every request gets the
    same id and the same directory, and the directory of a new request
    already exists when an earlier session has not been removed. *)
Theorem sessionId_same_for_every_request :
  forall (eval1 eval2 : string -> string) (fs1 fs2 : Fs.t),
    Template.substitutions (Template.cook None sessionId_template) = []
    /\ sessionId eval1 = sessionId eval2
    /\ sessionDir (newSession eval1 fs1) = sessionDir (newSession eval2 fs2)
    /\ Fs.existsSync (sessionDir (newSession eval2 (fs (newSession eval1 fs1))))
         (fs (newSession eval1 fs1)) = true.
Proof.
  intros eval1 eval2 fs1 fs2.
  split; [reflexivity|]. split; [reflexivity|]. split; [reflexivity|].
  exact (existsSync_mkdirSync (sessionDir_of (sessionId eval1)) _).
Qed.

(** ** The unhandled-rejection handler *)

(** C9.  The handler discards an error exactly when its message contains
    one of [rate-overlimit], [conflict], [timed out]: then nothing is
    logged and the session state is untouched; every other rejection is
    written to the console. *)
Theorem unhandledRejection_discards_iff_benign :
  forall (err : Js.Error) (s : Session),
    (discarded err = true <-> knownBenign err)
    /\ exec (unhandledRejection err) s
       = if discarded err then s
         else set_console (console s ++ [LogUnhandled err]) s.
Proof.
  intros err s. split.
  - unfold discarded, knownBenign. rewrite !orb_true_iff. split.
    + destruct err as [|[m|]]; simpl;
        try (intros [[H|H]|H]; discriminate).
      rewrite !includes_substringOf. intros [[H|H]|H]; exists m; auto.
    + intros (m & -> & H). simpl. rewrite !includes_substringOf. tauto.
  - unfold unhandledRejection. destruct (discarded err); reflexivity.
Qed.

Lemma unhandledRejection_discards_iff_benign_witness :
  discarded (Js.Obj (Some "Connection timed out after 60s")) = true
  /\ discarded (Js.Obj (Some "socket hang up")) = false
  /\ discarded Js.Nullish = false.
Proof.
  split; [|split; reflexivity].
  apply (proj1 (unhandledRejection_discards_iff_benign
                  (Js.Obj (Some "Connection timed out after 60s"))
                  (newSession (fun e => e) []))).
  exists "Connection timed out after 60s". split; [reflexivity|].
  right; right. exists "Connection ", " after 60s". reflexivity.
Defined.

(** ** Reasoning about callbacks *)

Section CallbackProperties.

Variable loggedOut : Z.
Variable jidNormalizedUser : string -> string.
Variable toDataURL : string -> Js.Settled string.
Variable sendOutcome : nat -> Js.Settled unit.

Lemma isLoggedOut_true (reason : option Z) :
  isLoggedOut loggedOut reason = true <-> reason = Some loggedOut.
Proof.
  destruct reason as [r|]; simpl; [|split; discriminate].
  rewrite Z.eqb_eq. split; [now intros -> | now intros [= ->]].
Qed.

Lemma step_not_live (e : Event) (s : Session) :
  crashed s || negb (attached s) = true ->
  step loggedOut jidNormalizedUser toDataURL sendOutcome e s = s.
Proof. intros H. unfold step. now rewrite H. Qed.

Lemma step_live_update (u : Update) (s : Session) :
  crashed s || negb (attached s) = false ->
  step loggedOut jidNormalizedUser toDataURL sendOutcome (ConnectionUpdate u) s
  = if Js.truthy (qr u) && negb (qrSent s)
    then set_awaiting (awaiting s ++ [u])
           (set_rendered (rendered s ++ [value (qr u)]) (set_qrSent true s))
    else runAsync (afterQr loggedOut jidNormalizedUser sendOutcome u) s.
Proof.
  intros H. unfold step. rewrite H. unfold onConnectionUpdate, runAsync at 1.
  cbv beta iota zeta delta [bind gets modify].
  destruct (Js.truthy (qr u) && negb (qrSent s)); reflexivity.
Qed.

(** C5.  On a [close] event whose reason is [loggedOut] the session
    directory is removed at once and nothing is scheduled or reconnected;
    for every other reason (a missing one too) the handler schedules
    [sock.ws.connect()] on the socket it already has, 3000 ms later, and
    leaves the directory alone.  The reconnect callback only calls
    [connect] on that socket.  A [close] event that does not start a
    rendering is handled by this branch alone. *)
Theorem close_event_logout_or_reconnect :
  forall (s : Session) (u : Update),
    connection u = Some Close ->
    let s' := exec (closeBranch loggedOut u) s in
    fst (closeBranch loggedOut u s) = Normal tt
    /\ (statusCode u = Some loggedOut ->
          Fs.existsSync (sessionDir s) (fs s') = false
          /\ timers s' = timers s
          /\ sock s' = sock s)
    /\ (statusCode u <> Some loggedOut ->
          timers s' = timers s ++ [(CbReconnect, 3000%Z)]
          /\ fs s' = fs s
          /\ sock s' = sock s)
    /\ (forall s0 : Session,
          exec (timerCallback jidNormalizedUser sendOutcome CbReconnect) s0
          = set_sock {| user := user (sock s0); ended := ended (sock s0);
                        wsConnects := S (wsConnects (sock s0));
                        outbox := outbox (sock s0) |} s0)
    /\ (crashed s = false -> attached s = true ->
        Js.truthy (qr u) && negb (qrSent s) = false ->
        step loggedOut jidNormalizedUser toDataURL sendOutcome
          (ConnectionUpdate u) s = s').
Proof.
  intros s u Hc s'. subst s'.
  assert (Hn : fst (closeBranch loggedOut u s) = Normal tt)
    by (unfold closeBranch; rewrite Hc; js_auto).
  assert (Ev : crashed s = false -> attached s = true ->
              Js.truthy (qr u) && negb (qrSent s) = false ->
              step loggedOut jidNormalizedUser toDataURL sendOutcome
                (ConnectionUpdate u) s
              = exec (closeBranch loggedOut u) s).
  { intros C A Q. rewrite step_live_update by now rewrite C, A.
    rewrite Q. unfold runAsync, afterQr, bind, openBranch, exec.
    rewrite Hc. cbv beta iota delta [ret].
    destruct (closeBranch loggedOut u s) as [c sx]. cbn in Hn. now subst c. }
  clear Hn. revert Ev. unfold closeBranch. rewrite Hc. intros Ev.
  split; [js_auto|].
  split.
  { intros E. apply isLoggedOut_true in E. rewrite E.
    repeat split; js_auto; solve [apply existsSync_rmSync | assumption]. }
  split.
  { intros N. destruct (isLoggedOut loggedOut (statusCode u)) eqn:L.
    - apply isLoggedOut_true in L. contradiction.
    - repeat split; js_auto. }
  split; [intros s0; reflexivity | exact Ev].
Qed.

(** *** What [sendWelcomeMessages] can touch *)

Lemma sendWelcomeMessages_frame (dir : string) (fb : option string) (s : Session) :
  let r := sendWelcomeMessages jidNormalizedUser sendOutcome dir fb s in
  fst r = Normal tt
  /\ sameButSockTimersConsole s (snd r)
  /\ (timers (snd r) = timers s
      \/ timers (snd r) = timers s ++ [(CbCleanup, 15000%Z)]).
Proof.
  unfold sendWelcomeMessages, sameButSockTimersConsole, sendMessage.
  js_auto; repeat split; auto.
Qed.

(** *** The order of the sends *)

Lemma sendWelcomeMessages_runs_in_order (dir : string) (fb : option string) (s : Session) :
  let userJid := Js.or fb (resolveJid jidNormalizedUser (sock s)) in
  let s' := exec (sendWelcomeMessages jidNormalizedUser sendOutcome dir fb) s in
  let ps := onboardingPayloads dir (Fs.existsSync (credsPath_of dir) (fs s)) in
  let r := sendInOrder sendOutcome (List.length (outbox (sock s))) ps in
  Js.truthy userJid = true ->
  outbox (sock s') = outbox (sock s) ++ map (pair (value userJid)) (fst r)
  /\ timers s'
     = timers s ++ match snd r with
                   | None => [(CbCleanup, 15000%Z)]
                   | Some _ => []
                   end
  /\ (exists mid, console s'
        = console s ++ mid ++ [match snd r with
                               | None => LogAllSent
                               | Some e => LogWelcomeFailed e
                               end])
  /\ (snd r = None ->
      console s'
      = console s
        ++ (if Fs.existsSync (credsPath_of dir) (fs s)
            then [LogSessionFileSent (credsPath_of dir)] else [])
        ++ [LogAllSent]).
Proof.
  intros userJid s' ps r T. subst s' ps r.
  unfold sendWelcomeMessages, onboardingPayloads, sendMessage.
  cbv beta iota zeta delta
    [exec bind ret throw tryCatch gets modify when log setTimeout].
  fold userJid. rewrite T. cbn [negb]. cbv beta.
  destruct (Fs.existsSync (credsPath_of dir) (fs s)) eqn:P; cbn.
  all: repeat (rewrite ?length_app; cbn [List.length];
               rewrite ?Nat.add_1_r;
               match goal with
               | |- context [sendOutcome ?n] => destruct (sendOutcome n) eqn:?
               end; cbn).
  all: rewrite ?app_nil_r, <- ?app_assoc; cbn.
  all: repeat split; eauto; try (intros; discriminate).
  all: first [ exists []; reflexivity
             | exists [LogSessionFileSent (credsPath_of dir)]; reflexivity ].
Qed.

Lemma sendInOrder_all_fulfilled (ps : list Payload) :
  forall n,
    (forall i, (i < List.length ps)%nat -> sendOutcome (n + i) = Js.Fulfilled tt) ->
    sendInOrder sendOutcome n ps = (ps, None).
Proof.
  induction ps as [|p ps IH]; intros n H; simpl; [reflexivity|].
  pose proof (H 0%nat ltac:(simpl; lia)) as H0. rewrite Nat.add_0_r in H0.
  rewrite H0, IH; [reflexivity|].
  intros i Hi. replace (S n + i)%nat with (n + S i)%nat by lia.
  apply H. simpl. lia.
Qed.

Lemma sendInOrder_first_rejected (ps : list Payload) :
  forall n i e,
    (i < List.length ps)%nat ->
    (forall j, (j < i)%nat -> sendOutcome (n + j) = Js.Fulfilled tt) ->
    sendOutcome (n + i) = Js.Rejected e ->
    sendInOrder sendOutcome n ps = (firstn (S i) ps, Some e).
Proof.
  induction ps as [|p ps IH]; intros n i e Hi Hok Hbad; simpl in Hi; [lia|].
  destruct i as [|i].
  - rewrite Nat.add_0_r in Hbad. simpl. now rewrite Hbad.
  - pose proof (Hok 0%nat ltac:(lia)) as H0. rewrite Nat.add_0_r in H0.
    cbn [sendInOrder]. rewrite H0.
    rewrite (IH (S n) i e); [reflexivity | lia | |].
    + intros j Hj. replace (S n + j)%nat with (n + S j)%nat by lia.
      apply Hok. lia.
    + now replace (S n + i)%nat with (n + S i)%nat by lia.
Qed.

(** The sends made are always an initial part of the planned ones. *)
Lemma sendInOrder_prefix (ps : list Payload) :
  forall n, exists k, fst (sendInOrder sendOutcome n ps) = firstn k ps.
Proof.
  induction ps as [|p ps IH]; intros n; simpl.
  - now exists 0%nat.
  - destruct (sendOutcome n).
    + destruct (IH (S n)) as [k Hk].
      destruct (sendInOrder sendOutcome (S n) ps) as [made err]. simpl in *.
      exists (S k). simpl. now rewrite Hk.
    + now exists 1%nat.
Qed.

(** *** The identity used by a run *)

Lemma or_none (x : option string) : Js.or None x = x.
Proof. reflexivity. Qed.

Lemma or_self (x : option string) : Js.or x x = x.
Proof. unfold Js.or. now destruct (Js.truthy x). Qed.

(** Called without an identity, the function uses the one the socket has
    at that moment. *)
Lemma sendWelcomeMessages_without_identity (dir : string) (s : Session) :
  sendWelcomeMessages jidNormalizedUser sendOutcome dir None s
  = sendWelcomeMessages jidNormalizedUser sendOutcome dir
      (resolveJid jidNormalizedUser (sock s)) s.
Proof.
  unfold sendWelcomeMessages.
  cbv beta iota zeta delta [tryCatch bind gets].
  now rewrite or_none, or_self.
Qed.

Lemma delayedWelcomes_app (l l' : list (TimerCb * Z)) :
  delayedWelcomes (l ++ l') = (delayedWelcomes l + delayedWelcomes l')%nat.
Proof. unfold delayedWelcomes. now rewrite filter_app, length_app. Qed.

Lemma delayedWelcomes_remove_nth (l : list (TimerCb * Z)) :
  forall k d,
    nth_error l k = Some (CbDelayedWelcome, d) ->
    S (delayedWelcomes (remove_nth k l)) = delayedWelcomes l.
Proof.
  induction l as [|[cb d'] l IH]; intros k d H.
  - destruct k; discriminate.
  - destruct k as [|k]; simpl in H.
    + injection H as -> ->. reflexivity.
    + specialize (IH k d H).
      change (remove_nth (S k) ((cb, d') :: l)) with ((cb, d') :: remove_nth k l).
      change ((cb, d') :: remove_nth k l) with ([(cb, d')] ++ remove_nth k l).
      change ((cb, d') :: l) with ([(cb, d')] ++ l).
      rewrite !delayedWelcomes_app. lia.
Qed.

Lemma sendWelcomeMessages_no_retry (dir : string) (fb : option string) (s : Session) :
  delayedWelcomes
    (timers (exec (sendWelcomeMessages jidNormalizedUser sendOutcome dir fb) s))
  = delayedWelcomes (timers s).
Proof.
  destruct (sendWelcomeMessages_frame dir fb s) as (_ & _ & [E|E]);
    unfold exec; rewrite E; [reflexivity|].
  rewrite delayedWelcomes_app.
  change (delayedWelcomes [(CbCleanup, 15000%Z)]) with 0%nat. lia.
Qed.

Lemma openBranch_normal (u : Update) (s : Session) :
  fst (openBranch jidNormalizedUser sendOutcome u s) = Normal tt.
Proof.
  unfold openBranch.
  destruct (connection u) as [[| |]|]; try reflexivity.
  cbv beta iota zeta delta [bind gets modify log setTimeout].
  cbn [sock sessionDir set_console set_connectionSuccess].
  destruct (negb _); [reflexivity|].
  apply (proj1 (sendWelcomeMessages_frame _ _ _)).
Qed.

Lemma sendWelcomeMessages_unknown_identity (dir : string) (fb : option string)
      (s : Session) :
  Js.truthy (Js.or fb (resolveJid jidNormalizedUser (sock s))) = false ->
  sendWelcomeMessages jidNormalizedUser sendOutcome dir fb s
  = (Normal tt, set_console (console s ++ [LogNoJid]) s).
Proof.
  intros T. unfold sendWelcomeMessages.
  cbv beta iota zeta delta [tryCatch bind gets log modify].
  now rewrite T.
Qed.

(** The first of the planned sends is always made. *)
Lemma sendInOrder_nonempty (p : Payload) (ps : list Payload) (n : nat) :
  fst (sendInOrder sendOutcome n (p :: ps)) <> [].
Proof.
  simpl. destruct (sendOutcome n); [|discriminate].
  destruct (sendInOrder sendOutcome (S n) ps). discriminate.
Qed.

(** One run of the onboarding for an identity that is known. *)
Lemma sendWelcomeMessages_made (dir : string) (fb : option string) (s : Session) :
  let userJid := Js.or fb (resolveJid jidNormalizedUser (sock s)) in
  let s' := exec (sendWelcomeMessages jidNormalizedUser sendOutcome dir fb) s in
  let ps := onboardingPayloads dir (Fs.existsSync (credsPath_of dir) (fs s)) in
  let n := List.length (outbox (sock s)) in
  Js.truthy userJid = true ->
  exists made,
    outbox (sock s') = outbox (sock s) ++ map (pair (value userJid)) made
    /\ made <> []
    /\ (exists k, made = firstn k ps)
    /\ ((forall i, (i < List.length ps)%nat ->
                   sendOutcome (n + i) = Js.Fulfilled tt) ->
        made = ps /\ timers s' = timers s ++ [(CbCleanup, 15000%Z)]).
Proof.
  intros userJid s' ps n T.
  destruct (sendWelcomeMessages_runs_in_order dir fb s T) as (O & Tm & _).
  fold userJid s' ps n in O, Tm.
  exists (fst (sendInOrder sendOutcome n ps)).
  split; [exact O|]. split; [|split].
  - unfold ps, onboardingPayloads.
    destruct (Fs.existsSync (credsPath_of dir) (fs s));
      apply sendInOrder_nonempty.
  - apply sendInOrder_prefix.
  - intros Hall. rewrite (sendInOrder_all_fulfilled ps n Hall) in *.
    split; [reflexivity | exact Tm].
Qed.

(** C7 (as amended).  On an [open] event [connectionSuccess] becomes
    true.  When the identity of the account cannot be resolved yet, the
    handler sends nothing and schedules one onboarding attempt 5000 ms
    later.  No identity is handed to that attempt: it resolves the
    identity again from the socket when the timer fires.  If the socket
    still has none, it sends nothing, logs that no identity was found and
    schedules nothing; otherwise it sends the onboarding messages to the
    identity the socket has by then.  Either way the attempt is used up and
    no further one is scheduled.  When the identity is resolvable at the
    [open] event the onboarding runs at once with it and nothing is
    deferred.  An onboarding that runs makes at least its first send, makes
    an initial part of the planned sends, and makes them all and schedules
    the cleanup when every send is fulfilled.  An [open] event that does
    not start a rendering is handled by this branch alone. *)
Theorem open_event_onboarding_once :
  forall (s : Session) (u : Update),
    connection u = Some Open ->
    let s' := exec (openBranch jidNormalizedUser sendOutcome u) s in
    let identity := resolveJid jidNormalizedUser (sock s) in
    connectionSuccess s' = true
    /\ (Js.truthy identity = false ->
          s' = set_timers (timers s ++ [(CbDelayedWelcome, 5000%Z)])
                 (set_console (console s ++ [LogConnected; LogJidDelay])
                    (set_connectionSuccess true s)))
    /\ (Js.truthy identity = true ->
          let present := Fs.existsSync (credsPath_of (sessionDir s)) (fs s) in
          let ps := (if present then [credsDocument (credsPath_of (sessionDir s))]
                     else [])
                    ++ [welcomeImage; welcomeAudio; finalMessage] in
          let n := List.length (outbox (sock s)) in
          delayedWelcomes (timers s') = delayedWelcomes (timers s)
          /\ exists made,
               outbox (sock s')
               = outbox (sock s) ++ map (pair (value identity)) made
               /\ made <> []
               /\ (exists k, made = firstn k ps)
               /\ ((forall i, (i < List.length ps)%nat ->
                              sendOutcome (n + i) = Js.Fulfilled tt) ->
                   made = ps
                   /\ timers s' = timers s ++ [(CbCleanup, 15000%Z)]))
    /\ (forall (s0 : Session) (k : nat) (d : Z),
          crashed s0 = false ->
          attached s0 = true ->
          nth_error (timers s0) k = Some (CbDelayedWelcome, d) ->
          let s1 := step loggedOut jidNormalizedUser toDataURL sendOutcome
                      (TimerFires k) s0 in
          let later := resolveJid jidNormalizedUser (sock s0) in
          let pending := remove_nth k (timers s0) in
          let present := Fs.existsSync (credsPath_of (sessionDir s0)) (fs s0) in
          let ps := (if present then [credsDocument (credsPath_of (sessionDir s0))]
                     else [])
                    ++ [welcomeImage; welcomeAudio; finalMessage] in
          let n := List.length (outbox (sock s0)) in
          S (delayedWelcomes (timers s1)) = delayedWelcomes (timers s0)
          /\ (Js.truthy later = false ->
                s1 = set_console (console s0 ++ [LogNoJid])
                       (set_timers pending s0))
          /\ (Js.truthy later = true ->
                exists made,
                  outbox (sock s1)
                  = outbox (sock s0) ++ map (pair (value later)) made
                  /\ made <> []
                  /\ (exists k', made = firstn k' ps)
                  /\ ((forall i, (i < List.length ps)%nat ->
                                 sendOutcome (n + i) = Js.Fulfilled tt) ->
                      made = ps
                      /\ timers s1 = pending ++ [(CbCleanup, 15000%Z)])))
    /\ (crashed s = false -> attached s = true ->
        Js.truthy (qr u) && negb (qrSent s) = false ->
        step loggedOut jidNormalizedUser toDataURL sendOutcome
          (ConnectionUpdate u) s = s').
Proof.
  intros s u Hc s' identity. subst s'.
  assert (Ev : crashed s = false -> attached s = true ->
               Js.truthy (qr u) && negb (qrSent s) = false ->
               step loggedOut jidNormalizedUser toDataURL sendOutcome
                 (ConnectionUpdate u) s
               = exec (openBranch jidNormalizedUser sendOutcome u) s).
  { intros C A Q. rewrite step_live_update by now rewrite C, A.
    rewrite Q. unfold runAsync, afterQr, bind, closeBranch, exec.
    rewrite Hc. pose proof (openBranch_normal u s) as Hn.
    destruct (openBranch jidNormalizedUser sendOutcome u s) as [c sx].
    cbn in Hn. now subst c. }
  set (connected := set_console (console s ++ [LogConnected])
                      (set_connectionSuccess true s)).
  assert (R : forall T : bool, Js.truthy identity = T ->
            exec (openBranch jidNormalizedUser sendOutcome u) s
            = if T
              then exec (sendWelcomeMessages jidNormalizedUser sendOutcome
                           (sessionDir s) identity) connected
              else set_timers (timers s ++ [(CbDelayedWelcome, 5000%Z)])
                     (set_console (console s ++ [LogConnected; LogJidDelay])
                        (set_connectionSuccess true s))).
  { intros T HT. unfold openBranch. rewrite Hc.
    cbv beta iota zeta delta [exec bind gets modify log setTimeout].
    cbn [sock sessionDir set_console set_connectionSuccess].
    fold identity. rewrite HT. destruct T; cbn; [reflexivity|].
    now rewrite <- app_assoc. }
  split; [|split; [|split; [|split; [|exact Ev]]]].
  - rewrite (R _ eq_refl). destruct (Js.truthy identity).
    + destruct (sendWelcomeMessages_frame (sessionDir s) identity connected)
        as (_ & F & _).
      unfold sameButSockTimersConsole in F. unfold exec.
      now destruct F as (_ & _ & _ & _ & -> & _).
    + reflexivity.
  - intros T. now rewrite (R _ T).
  - intros T present ps n. rewrite (R _ T). split.
    + now rewrite sendWelcomeMessages_no_retry.
    + assert (T' : Js.truthy (Js.or identity
                                (resolveJid jidNormalizedUser (sock connected)))
                   = true).
      { change (resolveJid jidNormalizedUser (sock connected)) with identity.
        now rewrite or_self. }
      destruct (sendWelcomeMessages_made (sessionDir s) identity connected T')
        as (made & O & Ne & Pre & All).
      change (resolveJid jidNormalizedUser (sock connected)) with identity in O.
      rewrite or_self in O.
      exists made. split; [exact O|]. split; [exact Ne|].
      split; [exact Pre | exact All].
  - intros s0 k d Hcr Hat Hn s1 later pending present ps n. subst s1.
    set (fired := set_timers pending s0).
    assert (E : step loggedOut jidNormalizedUser toDataURL sendOutcome
                  (TimerFires k) s0
                = exec (sendWelcomeMessages jidNormalizedUser sendOutcome
                          (sessionDir s0) None) fired).
    { unfold step. rewrite Hcr, Hat, Hn. cbn [orb negb].
      unfold runTimer, timerCallback.
      cbv beta iota zeta delta [bind gets].
      fold pending. fold fired.
      change (sessionDir fired) with (sessionDir s0).
      pose proof (sendWelcomeMessages_frame (sessionDir s0) None fired)
        as (N & _).
      cbv zeta in N. unfold exec.
      destruct (sendWelcomeMessages jidNormalizedUser sendOutcome
                  (sessionDir s0) None fired) as [c sx].
      cbn in N. now subst c. }
    rewrite E. split; [|split].
    + rewrite sendWelcomeMessages_no_retry. cbn [timers fired set_timers].
      now apply delayedWelcomes_remove_nth with (d := d).
    + intros T. unfold exec.
      rewrite sendWelcomeMessages_unknown_identity; [reflexivity|].
      rewrite or_none. exact T.
    + intros T.
      assert (T' : Js.truthy (Js.or None
                                (resolveJid jidNormalizedUser (sock fired)))
                   = true) by (rewrite or_none; exact T).
      destruct (sendWelcomeMessages_made (sessionDir s0) None fired T')
        as (made & O & Ne & Pre & All).
      rewrite or_none in O.
      exists made. split; [exact O|]. split; [exact Ne|].
      split; [exact Pre | exact All].
Qed.

(** *** Failure of a send *)

(** C3 (as amended).  When a send throws, the error is logged, the sends
    after it are not made, and no timer is scheduled: the cleanup timer is
    set after the last send only, so it exists exactly when every send
    succeeded.  That timer, 15000 ms later, removes the session directory
    and ends the socket. *)
Theorem onboarding_cleanup_only_after_success :
  forall (dir : string) (fb : option string) (s : Session),
    let userJid := Js.or fb (resolveJid jidNormalizedUser (sock s)) in
    let s' := exec (sendWelcomeMessages jidNormalizedUser sendOutcome dir fb) s in
    let ps := onboardingPayloads dir (Fs.existsSync (credsPath_of dir) (fs s)) in
    let n := List.length (outbox (sock s)) in
    Js.truthy userJid = true ->
    (forall i e,
        (i < List.length ps)%nat ->
        (forall j, (j < i)%nat -> sendOutcome (n + j) = Js.Fulfilled tt) ->
        sendOutcome (n + i) = Js.Rejected e ->
        outbox (sock s')
        = outbox (sock s) ++ map (pair (value userJid)) (firstn (S i) ps)
        /\ (exists mid, console s' = console s ++ mid ++ [LogWelcomeFailed e])
        /\ timers s' = timers s)
    /\ ((forall i, (i < List.length ps)%nat ->
                   sendOutcome (n + i) = Js.Fulfilled tt) ->
        timers s' = timers s ++ [(CbCleanup, 15000%Z)])
    /\ (forall s0 : Session,
          let s1 := exec (timerCallback jidNormalizedUser sendOutcome CbCleanup) s0 in
          ended (sock s1) = true
          /\ Fs.existsSync (sessionDir s0) (fs s1) = false).
Proof.
  intros dir fb s userJid s' ps n T.
  destruct (sendWelcomeMessages_runs_in_order dir fb s T) as (O & Tm & C & _).
  fold userJid s' ps n in O, Tm, C.
  split; [|split].
  - intros i e Hi Hok Hbad.
    rewrite (sendInOrder_first_rejected ps n i e Hi Hok Hbad) in O, Tm, C.
    cbn [fst snd] in O, Tm, C. rewrite app_nil_r in Tm. auto.
  - intros Hall. rewrite (sendInOrder_all_fulfilled ps n Hall) in Tm.
    exact Tm.
  - intros s0 s1. subst s1. unfold timerCallback, onCleanup.
    split; js_auto; solve [apply existsSync_rmSync | assumption].
Qed.

(** *** The 60-second timer *)

(** When the response is still open, or a code was shown, the timer
    callback does what lines 137-143 say: a 408 if no code was shown, and
    the socket ended and the directory removed. *)
Lemma onTimeout_unpaired (s : Session) :
  connectionSuccess s = false ->
  headersSent s = false \/ qrSent s = true ->
  let r := onTimeout s in
  fst r = Normal tt
  /\ ended (sock (snd r)) = true
  /\ Fs.existsSync (sessionDir s) (fs (snd r)) = false
  /\ resWrites (snd r)
     = if qrSent s then resWrites s
       else [{| status := 408; body := ErrorBody "QR timeout – no scan detected" |}].
Proof.
  intros Hc H. unfold onTimeout.
  destruct H as [H|H]; cbn in H.
  - destruct (resWrites s) eqn:W; [|discriminate].
    repeat split; js_auto; try rewrite W; try reflexivity;
      solve [apply existsSync_rmSync | assumption].
  - repeat split; js_auto; solve [apply existsSync_rmSync | assumption].
Qed.

(** Once paired, the timer does nothing. *)
Lemma onTimeout_paired (s : Session) :
  connectionSuccess s = true -> onTimeout s = (Normal tt, s).
Proof. intros H. unfold onTimeout. js_auto. Qed.

(** *** Callbacks that neither render a code nor answer with one *)

Lemma quiet_refl (s : Session) : quiet s s.
Proof.
  unfold quiet. repeat split; auto.
  exists []. split; [now rewrite app_nil_r | constructor].
Qed.

Lemma quiet_trans (a b c : Session) : quiet a b -> quiet b c -> quiet a c.
Proof.
  unfold quiet.
  intros (A1 & A2 & A3 & A4 & A5 & A6 & e1 & A7 & A8)
         (B1 & B2 & B3 & B4 & B5 & B6 & e2 & B7 & B8).
  repeat split; try congruence; auto.
  exists (e1 ++ e2). split.
  - now rewrite B7, A7, app_assoc.
  - apply Forall_app. now split.
Qed.

Lemma unhandledRejection_quiet (e : Js.Error) (s : Session) :
  quiet s (exec (unhandledRejection e) s).
Proof. unfold unhandledRejection. quiet_done. Qed.

Lemma runAsync_quiet (m : M unit) (s : Session) :
  quiet s (snd (m s)) -> quiet s (runAsync m s).
Proof.
  unfold runAsync. destruct (m s) as [[a|e] s']; simpl; [auto|].
  intros Q. eapply quiet_trans; [exact Q | apply unhandledRejection_quiet].
Qed.

Lemma runTimer_quiet (m : M unit) (s : Session) :
  quiet s (snd (m s)) -> quiet s (runTimer m s).
Proof.
  unfold runTimer. destruct (m s) as [[a|e] s']; simpl; [auto|].
  intros Q. eapply quiet_trans; [exact Q | quiet_done].
Qed.

Lemma sendWelcomeMessages_quiet (dir : string) (fb : option string) (s : Session) :
  quiet s (snd (sendWelcomeMessages jidNormalizedUser sendOutcome dir fb s)).
Proof.
  destruct (sendWelcomeMessages_frame dir fb s) as (_ & F & _).
  unfold sameButSockTimersConsole in F.
  destruct F as (F1 & F2 & F3 & F4 & F5 & F6 & F7 & F8 & F9 & F10 & _).
  unfold quiet. repeat split; try congruence.
  exists []. split; [now rewrite app_nil_r | constructor].
Qed.

Lemma openBranch_quiet (u : Update) (s : Session) :
  quiet s (snd (openBranch jidNormalizedUser sendOutcome u s)).
Proof.
  unfold openBranch.
  destruct (connection u) as [[| |]|]; try apply quiet_refl.
  cbv beta iota zeta delta [bind gets modify log setTimeout]. cbn [sock sessionDir set_console set_connectionSuccess].
  destruct (negb _).
  - quiet_done.
  - eapply quiet_trans; [|apply sendWelcomeMessages_quiet]. quiet_done.
Qed.

Lemma closeBranch_quiet (u : Update) (s : Session) :
  quiet s (snd (closeBranch loggedOut u s)).
Proof. unfold closeBranch. quiet_done. Qed.

Lemma afterQr_quiet (u : Update) (s : Session) :
  quiet s (snd (afterQr loggedOut jidNormalizedUser sendOutcome u s)).
Proof.
  unfold afterQr, bind.
  pose proof (openBranch_quiet u s) as Q.
  destruct (openBranch jidNormalizedUser sendOutcome u s) as [[a|e] s1];
    simpl in *; [|assumption].
  eapply quiet_trans; [exact Q | apply closeBranch_quiet].
Qed.

Lemma saveCreds_quiet (s : Session) : quiet s (snd (saveCreds s)).
Proof. unfold saveCreds. quiet_done. Qed.

Lemma timerCallback_quiet (cb : TimerCb) (s : Session) :
  quiet s (snd (timerCallback jidNormalizedUser sendOutcome cb s)).
Proof.
  destruct cb; unfold timerCallback, onTimeout, onCleanup.
  - cbv beta iota zeta delta [bind gets]. apply sendWelcomeMessages_quiet.
  - quiet_done.
  - quiet_done.
  - quiet_done.
Qed.

(** *** The QR block *)

(** What the settled QR block does: a rendered image is given to
    [res.json]; a failed rendering is logged and answered with a 500 when
    the response is still open. *)
Lemma qrBlock_effect (code : string) (s : Session) :
  let r := qrBlock toDataURL code s in
  fst r = Normal tt
  /\ sId (snd r) = sId s /\ attached (snd r) = attached s
  /\ qrSent (snd r) = qrSent s /\ rendered (snd r) = rendered s
  /\ awaiting (snd r) = awaiting s /\ crashed (snd r) = crashed s
  /\ match toDataURL code with
     | Js.Fulfilled img =>
         resWrites (snd r)
         = resWrites s ++ [{| status := resStatus s;
                              body := qrBody img (sId s) |}]
     | Js.Rejected e =>
         resWrites (snd r)
         = (if headersSent s then resWrites s else [qrFailure])
         /\ In (LogQrFailed e) (console (snd r))
     end.
Proof.
  unfold qrBlock, qrBody, qrFailure.
  destruct (toDataURL code) as [img|e]; js_auto; repeat split; auto;
    try reflexivity; apply in_or_app; right; now left.
Qed.

(** *** One code per session *)

Lemma firstCode_app (t t' : list Event) :
  firstCode (t ++ t') = orElse (firstCode t) (firstCode t').
Proof.
  induction t as [|e t IH]; simpl; [reflexivity|].
  rewrite IH. now destruct (codeOf e).
Qed.

Lemma countQr_app (l l' : list Response) :
  countQr (l ++ l') = (countQr l + countQr l')%nat.
Proof. unfold countQr. now rewrite filter_app, length_app. Qed.

Lemma countQr_errors (errs : list Response) :
  Forall (fun r => isQr r = false) errs -> countQr errs = 0%nat.
Proof.
  unfold countQr. induction 1 as [|r l H _ IH]; simpl; [reflexivity|].
  now rewrite H.
Qed.

Lemma qr_not_among_errors (errs : list Response) (r : Response) :
  Forall (fun r => isQr r = false) errs -> In r errs -> isQr r = true -> False.
Proof.
  intros F I Q. rewrite Forall_forall in F. specialize (F r I). congruence.
Qed.

Lemma QrInv_quiet (f f' : option string) (s s' : Session) :
  QrInv toDataURL f s -> quiet s s' ->
  (forall q, f = Some q -> f' = Some q) ->
  (attached s = true -> crashed s = false -> qrSent s = false -> f' = None) ->
  QrInv toDataURL f' s'.
Proof.
  intros (I1 & I2 & I3 & I4 & I5 & I6 & I7 & I8)
         (Q1 & Q2 & Q3 & Q4 & Q5 & Q6 & errs & Q7 & Q8) Hf Hn.
  unfold QrInv. rewrite Q1, Q2, Q3, Q4, Q5, Q7.
  repeat split.
  - now apply I1.
  - now apply I1.
  - intros q Hq. auto.
  - assumption.
  - rewrite countQr_app, (countQr_errors errs Q8). lia.
  - now apply I5.
  - now apply I5.
  - intros r Hr Hqr. apply in_app_or in Hr as [Hr|Hr].
    + now apply I6.
    + exfalso. eapply qr_not_among_errors; eauto.
  - intros A C S. apply Hn; auto.
    destruct (crashed s) eqn:E; [|reflexivity].
    rewrite (Q6 eq_refl) in C. discriminate.
  - intros r rest Hr Hqr. destruct (resWrites s) as [|r0 l] eqn:W.
    + exfalso. apply (qr_not_among_errors errs r Q8); [|exact Hqr].
      cbn in Hr. rewrite Hr. now left.
    + cbn in Hr. injection Hr as -> _. now apply (I8 r l).
Qed.

Lemma QrInv_suspend (u : Update) (s : Session) (f : option string) :
  QrInv toDataURL f s ->
  crashed s || negb (attached s) = false ->
  Js.truthy (qr u) = true -> qrSent s = false ->
  QrInv toDataURL (Some (value (qr u)))
    (set_awaiting (awaiting s ++ [u])
       (set_rendered (rendered s ++ [value (qr u)]) (set_qrSent true s))).
Proof.
  intros (I1 & I2 & I3 & I4 & I5 & I6 & I7 & I8) L T S.
  destruct (I1 S) as [R A].
  unfold QrInv. cbn. rewrite R, A in *. cbn in *.
  repeat split; try discriminate; try lia.
  - intros q [<-|[]]. reflexivity.
  - unfold countQr in I4. lia.
  - match goal with H : _ \/ False |- _ => destruct H as [<-|[]] end.
    assumption.
  - match goal with H : _ \/ False |- _ => destruct H as [<-|[]] end.
    now left.
  - intros r Hr Hq. destruct (I6 r Hr Hq) as (q & _ & [] & _).
  - exact I8.
Qed.

Lemma QrInv_settle (u : Update) (rest : list Update) (s : Session)
      (f : option string) :
  QrInv toDataURL f s ->
  awaiting s = u :: rest ->
  QrInv toDataURL f (snd (qrBlock toDataURL (value (qr u)) (set_awaiting rest s))).
Proof.
  intros (I1 & I2 & I3 & I4 & I5 & I6 & I7 & I8) A.
  destruct (qrBlock_effect (value (qr u)) (set_awaiting rest s))
    as (_ & E1 & E2 & E3 & E4 & E5 & E6 & W).
  cbn in E1, E2, E3, E4, E5, E6, W.
  destruct (I5 u) as [Tu Ru]; [rewrite A; now left|].
  assert (S : qrSent s = true).
  { destruct (qrSent s) eqn:S; [reflexivity|].
    destruct (I1 eq_refl) as [_ N]. congruence. }
  rewrite A in I4. cbn in I4.
  unfold QrInv. rewrite E1, E2, E3, E4, E5, E6.
  repeat split; try congruence; auto.
  - destruct (toDataURL (value (qr u))) as [img|e].
    + rewrite W, countQr_app. cbn. lia.
    + destruct W as [W _]. rewrite W.
      destruct (resWrites s); cbn in *; lia.
  - apply I5. rewrite A. now right.
  - apply I5. rewrite A. now right.
  - intros r Hr Hq. destruct (toDataURL (value (qr u))) as [img|e] eqn:D.
    + rewrite W in Hr. apply in_app_or in Hr as [Hr|[<-|[]]].
      * now apply I6.
      * exists (value (qr u)), img. auto.
    + destruct W as [W _]. rewrite W in Hr.
      destruct (resWrites s) eqn:RW; cbn in Hr.
      * destruct Hr as [<-|[]]. discriminate.
      * apply I6; [exact Hr | exact Hq].
  - intros r tl Hr Hq. destruct (toDataURL (value (qr u))) as [img|e] eqn:D.
    + rewrite W in Hr. unfold resStatus in Hr. cbn in Hr.
      destruct (resWrites s) as [|r0 l] eqn:RW; cbn in Hr.
      * injection Hr as <- _. reflexivity.
      * injection Hr as -> _. now apply (I8 r l).
    + destruct W as [W _]. rewrite W in Hr.
      destruct (resWrites s) as [|r0 l] eqn:RW; cbn in Hr.
      * injection Hr as <- _. discriminate.
      * injection Hr as -> _. now apply (I8 r l).
Qed.

Lemma step_QrInv (f : option string) (e : Event) (s : Session) :
  QrInv toDataURL f s ->
  QrInv toDataURL (orElse f (codeOf e))
    (step loggedOut jidNormalizedUser toDataURL sendOutcome e s).
Proof.
  intros I.
  assert (Keep : forall q, f = Some q -> orElse f (codeOf e) = Some q)
    by (intros q ->; reflexivity).
  destruct (crashed s || negb (attached s)) eqn:L.
  { rewrite step_not_live by assumption.
    apply (QrInv_quiet f _ s s I (quiet_refl s) Keep).
    intros A C _. rewrite A, C in L. discriminate. }
  assert (Quiet : forall s', codeOf e = None -> quiet s s' ->
                             QrInv toDataURL (orElse f (codeOf e)) s').
  { intros s' N Q. apply (QrInv_quiet f _ s s' I Q Keep).
    intros A C S. rewrite N.
    destruct I as (_ & _ & _ & _ & _ & _ & I7 & _). now rewrite (I7 A C S). }
  destruct e as [u| | |id|k].
  - rewrite step_live_update by assumption.
    destruct (Js.truthy (qr u)) eqn:T; destruct (qrSent s) eqn:S; cbn [andb negb].
    + apply (QrInv_quiet f _ s _ I); auto.
      * apply runAsync_quiet, afterQr_quiet.
      * intros _ _ S'. congruence.
    + assert (F : f = None).
      { destruct I as (_ & _ & _ & _ & _ & _ & I7 & _).
        apply orb_false_iff in L as [C A].
        apply negb_false_iff in A. auto. }
      subst f. cbn [orElse codeOf]. rewrite T.
      now apply (QrInv_suspend u s None).
    + apply Quiet; [cbn; now rewrite T | apply runAsync_quiet, afterQr_quiet].
    + apply Quiet; [cbn; now rewrite T | apply runAsync_quiet, afterQr_quiet].
  - unfold step. rewrite L.
    destruct (awaiting s) as [|u rest] eqn:A.
    + apply Quiet; [reflexivity | apply quiet_refl].
    + pose proof (QrInv_settle u rest s f I A) as I1.
      pose proof (qrBlock_effect (value (qr u)) (set_awaiting rest s)) as (N & _).
      cbv zeta in N.
      unfold resumeConnectionUpdate, runAsync, bind.
      destruct (qrBlock toDataURL (value (qr u)) (set_awaiting rest s))
        as [c s1]. cbn in N, I1. subst c.
      apply (QrInv_quiet f _ s1 _ I1).
      * pose proof (afterQr_quiet u s1) as Q.
        destruct (afterQr loggedOut jidNormalizedUser sendOutcome u s1)
          as [[a|x] s2]; cbn in Q; [exact Q|].
        eapply quiet_trans; [exact Q | apply unhandledRejection_quiet].
      * intros q ->. reflexivity.
      * intros A1 C1 S1. cbn.
        destruct I1 as (_ & _ & _ & _ & _ & _ & I7 & _).
        now rewrite (I7 A1 C1 S1).
  - unfold step. rewrite L.
    apply Quiet; [reflexivity | apply runAsync_quiet, saveCreds_quiet].
  - unfold step. rewrite L.
    apply Quiet; [reflexivity|]. unfold quiet. cbn. repeat split; auto.
    exists []. split; [now rewrite app_nil_r | constructor].
  - unfold step. rewrite L.
    destruct (nth_error (timers s) k) as [[cb d]|].
    + apply Quiet; [reflexivity|].
      eapply quiet_trans; [|apply runTimer_quiet, timerCallback_quiet].
      unfold quiet. cbn. repeat split; auto.
      exists []. split; [now rewrite app_nil_r | constructor].
    + apply Quiet; [reflexivity | apply quiet_refl].
Qed.

Lemma orElse_assoc (a b c : option string) :
  orElse (orElse a b) c = orElse a (orElse b c).
Proof. now destruct a. Qed.

Lemma run_QrInv (t : list Event) :
  forall (f : option string) (s : Session),
    QrInv toDataURL f s ->
    QrInv toDataURL (orElse f (firstCode t))
      (run loggedOut jidNormalizedUser toDataURL sendOutcome t s).
Proof.
  induction t as [|e t IH]; intros f s I; simpl.
  - now destruct f.
  - rewrite <- orElse_assoc. apply IH. now apply step_QrInv.
Qed.

Lemma route_QrInv (eval : string -> string) (init : Js.Settled (option string))
      (fs0 : Fs.t) :
  QrInv toDataURL None (route eval init fs0).
Proof.
  unfold route.
  assert (F : qrSent (newSession eval fs0) = false
              /\ rendered (newSession eval fs0) = []
              /\ awaiting (newSession eval fs0) = []
              /\ resWrites (newSession eval fs0) = [])
    by (repeat split; reflexivity).
  generalize dependent (newSession eval fs0).
  intros s0 (F1 & F2 & F3 & F4). unfold QrInv.
  destruct init as [account|e]; js_auto;
    rewrite ?F1, ?F2, ?F3, ?F4 in *; cbn;
    repeat split; auto; try discriminate; try contradiction;
    try (intros r [<-|[]]; discriminate);
    try (intros r rest E; first [discriminate E | injection E as <- _; discriminate]).
Qed.

(** Once the flag is set it stays set, and nothing more is rendered. *)
Lemma step_after_qrSent (e : Event) (s : Session) :
  qrSent s = true ->
  let s' := step loggedOut jidNormalizedUser toDataURL sendOutcome e s in
  qrSent s' = true /\ rendered s' = rendered s.
Proof.
  intros S.
  assert (Q : forall s', quiet s s' -> qrSent s' = true /\ rendered s' = rendered s).
  { intros s' (_ & _ & Q3 & Q4 & _). split; congruence. }
  destruct (crashed s || negb (attached s)) eqn:L; cbv zeta.
  { rewrite step_not_live by assumption. auto. }
  destruct e as [u| | |id|k].
  - rewrite step_live_update by assumption.
    rewrite S, andb_false_r. apply Q, runAsync_quiet, afterQr_quiet.
  - unfold step. rewrite L. destruct (awaiting s) as [|u rest]; [auto|].
    pose proof (qrBlock_effect (value (qr u)) (set_awaiting rest s))
      as (N & _ & _ & E3 & E4 & _).
    cbv zeta in N, E3, E4.
    unfold resumeConnectionUpdate, runAsync, bind.
    destruct (qrBlock toDataURL (value (qr u)) (set_awaiting rest s)) as [c s1].
    cbn in N, E3, E4. subst c.
    assert (Q1 : quiet s1
              (match afterQr loggedOut jidNormalizedUser sendOutcome u s1 with
               | (Normal _, s') => s'
               | (Thrown x, s') => exec (unhandledRejection x) s'
               end)).
    { pose proof (afterQr_quiet u s1) as Q1.
      destruct (afterQr loggedOut jidNormalizedUser sendOutcome u s1)
        as [[a|x] s2]; cbn in Q1; [exact Q1|].
      eapply quiet_trans; [exact Q1 | apply unhandledRejection_quiet]. }
    destruct Q1 as (_ & _ & Q3 & Q4 & _). split; congruence.
  - unfold step. rewrite L. apply Q, runAsync_quiet, saveCreds_quiet.
  - unfold step. rewrite L. cbn. auto.
  - unfold step. rewrite L.
    destruct (nth_error (timers s) k) as [[cb d]|]; [|auto].
    pose proof (runTimer_quiet _ _
      (timerCallback_quiet cb (set_timers (remove_nth k (timers s)) s)))
      as (_ & _ & Q3 & Q4 & _).
    cbn in Q3, Q4. split; congruence.
Qed.

Lemma run_after_qrSent (t : list Event) :
  forall s : Session,
    qrSent s = true ->
    let s' := run loggedOut jidNormalizedUser toDataURL sendOutcome t s in
    qrSent s' = true /\ rendered s' = rendered s.
Proof.
  induction t as [|e t IH]; intros s S; simpl; [auto|].
  destruct (step_after_qrSent e s S) as [S1 R1].
  destruct (IH _ S1) as [S2 R2]. split; congruence.
Qed.

(** *** Writes once the response was sent *)

Lemma openBranch_resWrites (u : Update) (s : Session) :
  resWrites (snd (openBranch jidNormalizedUser sendOutcome u s)) = resWrites s.
Proof.
  unfold openBranch.
  destruct (connection u) as [[| |]|]; try reflexivity.
  cbv beta iota zeta delta [bind gets modify log setTimeout].
  cbn [sock sessionDir set_console set_connectionSuccess].
  destruct (negb _); [reflexivity|].
  match goal with
  | |- context [sendWelcomeMessages _ _ ?d ?f ?x] =>
      destruct (sendWelcomeMessages_frame d f x) as (_ & F & _)
  end.
  unfold sameButSockTimersConsole in F.
  destruct F as (_ & _ & _ & _ & _ & F & _). now rewrite F.
Qed.

Lemma closeBranch_resWrites_sent (u : Update) (s : Session) :
  headersSent s = true ->
  resWrites (snd (closeBranch loggedOut u s)) = resWrites s.
Proof.
  intros H. cbn in H. unfold closeBranch.
  destruct (resWrites s) eqn:W; [discriminate|].
  js_auto.
Qed.

Lemma afterQr_resWrites_sent (u : Update) (s : Session) :
  headersSent s = true ->
  resWrites (runAsync (afterQr loggedOut jidNormalizedUser sendOutcome u) s)
  = resWrites s.
Proof.
  intros H. unfold runAsync, afterQr, bind.
  pose proof (openBranch_resWrites u s) as O.
  destruct (openBranch jidNormalizedUser sendOutcome u s) as [[a|x] s1];
    cbn in O.
  - assert (H1 : headersSent s1 = true) by (cbn in *; now rewrite O).
    pose proof (closeBranch_resWrites_sent u s1 H1) as C.
    destruct (closeBranch loggedOut u s1) as [[b|y] s2]; cbn in C.
    + congruence.
    + unfold unhandledRejection. destruct (discarded y); cbn; congruence.
  - unfold unhandledRejection. destruct (discarded x); cbn; congruence.
Qed.

Lemma run_app (t t' : list Event) (s : Session) :
  run loggedOut jidNormalizedUser toDataURL sendOutcome (t ++ t') s
  = run loggedOut jidNormalizedUser toDataURL sendOutcome t'
      (run loggedOut jidNormalizedUser toDataURL sendOutcome t s).
Proof. unfold run. apply fold_left_app. Qed.

(** *** Sends happen only once paired *)

Lemma sendInOrder_awaited (ps : list Payload) :
  forall n j,
    (S j < List.length (fst (sendInOrder sendOutcome n ps)))%nat ->
    sendOutcome (n + j) = Js.Fulfilled tt.
Proof.
  induction ps as [|p ps IH]; intros n j H; simpl in *; [lia|].
  destruct (sendOutcome n) as [[]|e] eqn:O.
  2: { cbn in H. lia. }
  destruct (sendInOrder sendOutcome (S n) ps) as [made err] eqn:R. simpl in H.
  destruct j as [|j]; [now rewrite Nat.add_0_r|].
  replace (n + S j)%nat with (S n + j)%nat by lia.
  apply IH. rewrite R. simpl. lia.
Qed.

Lemma paced_refl (s : Session) : paced s s.
Proof.
  unfold paced. repeat split; auto.
  exists []. rewrite app_nil_r. repeat split; auto.
Qed.

Lemma paced_trans (a b c : Session) : paced a b -> paced b c -> paced a c.
Proof.
  intros (A1 & (n1 & A2 & A3 & A4) & A5) (B1 & (n2 & B2 & B3 & B4) & B5).
  unfold paced. split; [auto|]. split.
  - exists (n1 ++ n2). rewrite B2, A2, app_assoc. repeat split.
    + apply Forall_app. now split.
    + intros N. destruct n2 as [|x n2].
      * rewrite app_nil_r in N. auto.
      * apply B4. discriminate.
  - intros d H. destruct (B5 d H) as [H1|H1]; [|now right].
    destruct (A5 d H1) as [H2|H2]; [now left | right; auto].
Qed.

Lemma truthy_value (v : option string) :
  Js.truthy v = true -> value v <> EmptyString.
Proof.
  destruct v as [x|]; cbn; [|discriminate].
  destruct (String.eqb_spec x EmptyString); [discriminate | auto].
Qed.

Lemma sendWelcomeMessages_paced (dir : string) (fb : option string) (s : Session) :
  connectionSuccess s = true ->
  paced s (snd (sendWelcomeMessages jidNormalizedUser sendOutcome dir fb s)).
Proof.
  intros C.
  destruct (sendWelcomeMessages_frame dir fb s) as (_ & F & Tm).
  unfold sameButSockTimersConsole in F.
  destruct F as (_ & _ & _ & _ & F5 & _).
  assert (C' : connectionSuccess
                 (snd (sendWelcomeMessages jidNormalizedUser sendOutcome dir fb s))
               = true) by congruence.
  unfold paced. split; [auto|]. split.
  - destruct (Js.truthy (Js.or fb (resolveJid jidNormalizedUser (sock s)))) eqn:T.
    + destruct (sendWelcomeMessages_runs_in_order dir fb s T) as (O & _).
      unfold exec in O. eexists. split; [exact O|]. split; [|auto].
      apply Forall_forall. intros [j p] Hin.
      apply in_map_iff in Hin as (p' & [= <- _] & _). cbn.
      now apply truthy_value.
    + rewrite (sendWelcomeMessages_unknown_identity dir fb s T). cbn.
      exists []. rewrite app_nil_r. repeat split; auto.
  - intros d H. right. assumption.
Qed.

Lemma openBranch_paced (u : Update) (s : Session) :
  paced s (snd (openBranch jidNormalizedUser sendOutcome u s)).
Proof.
  unfold openBranch.
  destruct (connection u) as [[| |]|]; try apply paced_refl.
  cbv beta iota zeta delta [bind gets modify log setTimeout].
  cbn [sock sessionDir set_console set_connectionSuccess].
  destruct (negb _).
  - paced_done.
  - eapply paced_trans; [|apply sendWelcomeMessages_paced; reflexivity].
    paced_done.
Qed.

Lemma closeBranch_paced (u : Update) (s : Session) :
  paced s (snd (closeBranch loggedOut u s)).
Proof. unfold closeBranch. paced_done. Qed.

Lemma afterQr_paced (u : Update) (s : Session) :
  paced s (runAsync (afterQr loggedOut jidNormalizedUser sendOutcome u) s).
Proof.
  unfold runAsync, afterQr, bind.
  pose proof (openBranch_paced u s) as O.
  destruct (openBranch jidNormalizedUser sendOutcome u s) as [[a|x] s1];
    cbn in O.
  - pose proof (closeBranch_paced u s1) as C.
    destruct (closeBranch loggedOut u s1) as [[b|y] s2]; cbn in C.
    + eapply paced_trans; eauto.
    + eapply paced_trans; [exact O|]. eapply paced_trans; [exact C|].
      unfold unhandledRejection. paced_done.
  - eapply paced_trans; [exact O|]. unfold unhandledRejection. paced_done.
Qed.

Lemma qrBlock_paced (code : string) (s : Session) :
  paced s (snd (qrBlock toDataURL code s)).
Proof. unfold qrBlock. paced_done. Qed.

Lemma timerCallback_paced (cb : TimerCb) (s : Session) :
  (cb = CbDelayedWelcome -> connectionSuccess s = true) ->
  paced s (runTimer (timerCallback jidNormalizedUser sendOutcome cb) s).
Proof.
  intros Hc. unfold runTimer.
  destruct cb; unfold timerCallback, onTimeout, onCleanup.
  - cbv beta iota zeta delta [bind gets].
    pose proof (sendWelcomeMessages_paced (sessionDir s) None s (Hc eq_refl)) as P.
    destruct (sendWelcomeMessages jidNormalizedUser sendOutcome (sessionDir s) None s)
      as [[a|x] s1]; cbn in P; [exact P|].
    eapply paced_trans; [exact P | paced_done].
  - paced_done.
  - paced_done.
  - paced_done.
Qed.

Lemma PairInv_paced (s s' : Session) : PairInv s -> paced s s' -> PairInv s'.
Proof.
  intros (I1 & I2 & I3) (P1 & (new & P2 & P3 & P4) & P5).
  unfold PairInv. rewrite P2. repeat split.
  - intros N. destruct new as [|x new].
    + rewrite app_nil_r in N. auto.
    + apply P4. discriminate.
  - intros d H. destruct (P5 d H) as [H1|H1]; eauto.
  - apply Forall_app. now split.
Qed.

Lemma In_remove_nth {A : Type} (x : A) (k : nat) (l : list A) :
  In x (remove_nth k l) -> In x l.
Proof.
  revert k. induction l as [|a l IH]; intros [|k] H; cbn in H;
    try contradiction.
  - now right.
  - destruct H as [H|H]; [now left | right; now apply (IH k)].
Qed.

Lemma step_PairInv (e : Event) (s : Session) :
  PairInv s ->
  PairInv (step loggedOut jidNormalizedUser toDataURL sendOutcome e s).
Proof.
  intros I. unfold step.
  destruct (crashed s || negb (attached s)); [assumption|].
  destruct e as [u| | |id|k].
  - unfold onConnectionUpdate.
    destruct (Js.truthy (qr u) && negb (qrSent s)) eqn:B.
    + cbv beta iota zeta delta [runAsync bind gets modify]. rewrite B.
      exact I.
    + apply (PairInv_paced s); [assumption|].
      replace (runAsync _ s)
        with (runAsync (afterQr loggedOut jidNormalizedUser sendOutcome u) s).
      * apply afterQr_paced.
      * cbv beta iota zeta delta [runAsync bind gets]. now rewrite B.
  - destruct (awaiting s) as [|u rest]; [assumption|].
    unfold resumeConnectionUpdate, runAsync, bind.
    pose proof (qrBlock_paced (value (qr u)) (set_awaiting rest s)) as Q.
    pose proof (qrBlock_effect (value (qr u)) (set_awaiting rest s)) as (N & _).
    cbv zeta in N.
    destruct (qrBlock toDataURL (value (qr u)) (set_awaiting rest s)) as [c s1].
    cbn in N, Q. subst c.
    apply (PairInv_paced s1).
    * apply (PairInv_paced (set_awaiting rest s)); [exact I | exact Q].
    * apply afterQr_paced.
  - apply (PairInv_paced s); [assumption|].
    unfold runAsync, saveCreds. paced_done.
  - exact I.
  - destruct (nth_error (timers s) k) as [[cb d]|] eqn:Hn; [|assumption].
    assert (I0 : PairInv (set_timers (remove_nth k (timers s)) s)).
    { destruct I as (I1 & I2 & I3). unfold PairInv. cbn.
      repeat split; auto.
      intros d' H. apply In_remove_nth in H. eauto. }
    apply (PairInv_paced _ _ I0), timerCallback_paced.
    intros ->. cbn. destruct I as (_ & I2 & _).
    apply (I2 d). eapply nth_error_In; eauto.
Qed.

Lemma run_PairInv (t : list Event) :
  forall s : Session,
    PairInv s ->
    PairInv (run loggedOut jidNormalizedUser toDataURL sendOutcome t s).
Proof.
  induction t as [|e t IH]; intros s I; simpl; [assumption|].
  apply IH. now apply step_PairInv.
Qed.

Lemma route_PairInv (eval : string -> string) (init : Js.Settled (option string))
      (fs0 : Fs.t) :
  PairInv (route eval init fs0).
Proof.
  unfold route.
  assert (F : outbox (sock (newSession eval fs0)) = []
              /\ timers (newSession eval fs0) = [])
    by (split; reflexivity).
  generalize dependent (newSession eval fs0).
  intros s0 (F1 & F2). unfold PairInv.
  destruct init as [account|e]; js_auto;
    rewrite ?F1, ?F2 in *; cbn;
    repeat split; auto; try congruence;
    try (intros d [H|[]]; discriminate H);
    try (intros d []).
Qed.

(** *** C8 *)

(** C8.  In every run of a session, messages are sent only once
    [connectionSuccess] is set and only to a non-empty identity.  One run
    of the onboarding sends nothing when no identity is known; otherwise
    the sends it makes are an initial part of: the credential document
    (when [creds.json] exists, and without error when it does not), the
    welcome image, the welcome audio, the closing text; a send is made only
    after the one before it was fulfilled; and when every send is
    fulfilled all of them are made, in that order. *)
Theorem onboarding_after_pairing_in_order :
  (forall (eval : string -> string) (init : Js.Settled (option string))
          (fs0 : Fs.t) (t : list Event),
      let s := run loggedOut jidNormalizedUser toDataURL sendOutcome t
                 (route eval init fs0) in
      (outbox (sock s) <> [] -> connectionSuccess s = true)
      /\ Forall (fun m => fst m <> EmptyString) (outbox (sock s)))
  /\ (forall (dir : string) (fb : option string) (s : Session),
        let userJid := Js.or fb (resolveJid jidNormalizedUser (sock s)) in
        let s' := exec (sendWelcomeMessages jidNormalizedUser sendOutcome dir fb) s in
        let present := Fs.existsSync (credsPath_of dir) (fs s) in
        let ps := (if present then [credsDocument (credsPath_of dir)] else [])
                  ++ [welcomeImage; welcomeAudio; finalMessage] in
        let n := List.length (outbox (sock s)) in
        (Js.truthy userJid = false -> outbox (sock s') = outbox (sock s))
        /\ (Js.truthy userJid = true ->
              exists made,
                outbox (sock s')
                = outbox (sock s) ++ map (pair (value userJid)) made
                /\ (exists k, made = firstn k ps)
                /\ (forall j, (S j < List.length made)%nat ->
                              sendOutcome (n + j) = Js.Fulfilled tt)
                /\ ((forall i, (i < List.length ps)%nat ->
                               sendOutcome (n + i) = Js.Fulfilled tt) ->
                    made = ps
                    /\ console s'
                       = console s
                         ++ (if present
                             then [LogSessionFileSent (credsPath_of dir)]
                             else [])
                         ++ [LogAllSent]))).
Proof.
  split.
  - intros eval init fs0 t s.
    destruct (run_PairInv t _ (route_PairInv eval init fs0)) as (I1 & _ & I3).
    now split.
  - intros dir fb s userJid s' present ps n. split.
    + intros T. unfold s', exec.
      now rewrite (sendWelcomeMessages_unknown_identity dir fb s T).
    + intros T.
      destruct (sendWelcomeMessages_runs_in_order dir fb s T) as (O & _ & _ & K).
      fold userJid s' in O, K.
      change (onboardingPayloads dir (Fs.existsSync (credsPath_of dir) (fs s)))
        with ps in O, K.
      fold n present in O, K.
      exists (fst (sendInOrder sendOutcome n ps)). split; [exact O|]. split; [|split].
      * destruct (sendInOrder_prefix ps n) as [k Hk]. now exists k.
      * intros j Hj. now apply sendInOrder_awaited with (ps := ps).
      * intros Hall. rewrite (sendInOrder_all_fulfilled ps n Hall) in *.
        split; [reflexivity | now apply K].
Qed.

(** ** The session store *)

Lemma existsSync_filter (q : string) (f : string -> bool) (l : Fs.t) :
  Fs.existsSync q (filter f l) = Fs.existsSync q l && f q.
Proof.
  unfold Fs.existsSync. induction l as [|x l IH]; [reflexivity|].
  cbn [filter existsb].
  destruct (f x) eqn:F; cbn [existsb]; rewrite IH;
    destruct (String.eqb_spec q x) as [E|N]; cbn [orb]; try reflexivity.
  - subst x. now rewrite F.
  - subst x. rewrite F, andb_false_r. reflexivity.
Qed.

Lemma removeSession_run (path : string) (s : Session) :
  removeSession path s
  = if Fs.existsSync path (fs s)
    then (Normal tt,
          set_console (console s ++ [LogSessionRemoved path])
            (set_fs (Fs.rmSync path (fs s)) s))
    else (Normal tt, s).
Proof.
  unfold removeSession.
  cbv beta iota zeta delta [bind gets when modify log ret].
  now destruct (Fs.existsSync path (fs s)).
Qed.

(** X1.  On a disk where [fs.rmSync] succeeds, [removeSession] is safe to
    repeat: after it the path does not exist, a second call changes nothing
    and logs nothing, on a path that does not exist it leaves the whole
    session as it is, and on a path that exists it logs the removal once. *)
Theorem removeSession_idempotent :
  forall (path : string) (s : Session),
    Fs.existsSync path (fs (exec (removeSession path) s)) = false
    /\ exec (removeSession path) (exec (removeSession path) s)
       = exec (removeSession path) s
    /\ (Fs.existsSync path (fs s) = false -> exec (removeSession path) s = s)
    /\ (Fs.existsSync path (fs s) = true ->
        console (exec (removeSession path) s)
        = console s ++ [LogSessionRemoved path]).
Proof.
  intros path s. unfold exec. rewrite removeSession_run.
  destruct (Fs.existsSync path (fs s)) eqn:E; cbn [fst snd].
  - split; [apply existsSync_rmSync|].
    split; [|split; [discriminate | reflexivity]].
    rewrite removeSession_run. cbn [fs set_console set_fs].
    now rewrite existsSync_rmSync.
  - split; [assumption|].
    split; [|split; [reflexivity | discriminate]].
    rewrite removeSession_run. now rewrite E.
Qed.



Lemma existsSync_mkdirSync_kept (p q : string) (l : Fs.t) :
  Fs.existsSync q l = true -> Fs.existsSync q (Fs.mkdirSync p l) = true.
Proof.
  intros H. unfold Fs.mkdirSync. destruct (Fs.existsSync p l); [assumption|].
  apply existsSync_In, in_or_app. left. now apply existsSync_In.
Qed.

Lemma mkdirSync_present (p : string) (l : Fs.t) :
  Fs.existsSync p l = true -> Fs.mkdirSync p l = l.
Proof. intros H. unfold Fs.mkdirSync. now rewrite H. Qed.

Lemma route_fulfilled (eval : string -> string) (account : option string)
      (fs0 : Fs.t) :
  route eval (Js.Fulfilled account) fs0
  = set_timers [(CbTimeout, 60000%Z)]
      (set_attached true
         (set_sock {| user := account; ended := false; wsConnects := 0;
                      outbox := [] |} (newSession eval fs0))).
Proof. reflexivity. Qed.

Lemma newSession_fs (eval : string -> string) (fs0 : Fs.t) :
  let s := newSession eval fs0 in
  Fs.existsSync "./qr_sessions" (fs s) = true
  /\ Fs.existsSync (sessionDir s) (fs s) = true
  /\ (forall q, Fs.existsSync q fs0 = true -> Fs.existsSync q (fs s) = true)
  /\ (Fs.existsSync "./qr_sessions" fs0 = true ->
      Fs.existsSync (sessionDir s) fs0 = true -> fs s = fs0).
Proof.
  unfold newSession. cbn [fs sessionDir].
  set (dir := sessionDir_of (sessionId eval)).
  set (fs1 := if negb (Fs.existsSync "./qr_sessions" fs0)
              then Fs.mkdirSync "./qr_sessions" fs0 else fs0).
  assert (Root : Fs.existsSync "./qr_sessions" fs1 = true).
  { unfold fs1. destruct (Fs.existsSync "./qr_sessions" fs0) eqn:E;
      cbn [negb]; [assumption | apply existsSync_mkdirSync]. }
  assert (Kept : forall q, Fs.existsSync q fs0 = true -> Fs.existsSync q fs1 = true).
  { intros q H. unfold fs1. destruct (negb _); [|assumption].
    now apply existsSync_mkdirSync_kept. }
  split; [now apply existsSync_mkdirSync_kept|].
  split; [apply existsSync_mkdirSync|].
  split; [intros q H; now apply existsSync_mkdirSync_kept, Kept|].
  intros R D. unfold fs1. rewrite R. cbn [negb].
  now apply mkdirSync_present.
Qed.

(** X3.  When the socket is created the route has made the sessions root
    and the session directory without removing anything that was on disk,
    and nothing is created again when both were already there; the response
    is still open, the handlers are attached, the socket carries the account
    of the loaded credentials, and one timer of 60000 ms is pending. *)
Theorem route_creates_session_directory :
  forall (eval : string -> string) (account : option string) (fs0 : Fs.t),
    let s := route eval (Js.Fulfilled account) fs0 in
    Fs.existsSync "./qr_sessions" (fs s) = true
    /\ Fs.existsSync (sessionDir s) (fs s) = true
    /\ (forall q, Fs.existsSync q fs0 = true -> Fs.existsSync q (fs s) = true)
    /\ (Fs.existsSync "./qr_sessions" fs0 = true ->
        Fs.existsSync (sessionDir s) fs0 = true -> fs s = fs0)
    /\ resWrites s = []
    /\ timers s = [(CbTimeout, 60000%Z)]
    /\ attached s = true
    /\ user (sock s) = account.
Proof.
  intros eval account fs0 s. subst s. rewrite route_fulfilled.
  cbn [fs sessionDir resWrites timers attached sock user set_timers
       set_attached set_sock].
  destruct (newSession_fs eval fs0) as (A & B & C & D).
  repeat split; assumption.
Qed.

Lemma run_not_attached (t : list Event) (s : Session) :
  attached s = false ->
  run loggedOut jidNormalizedUser toDataURL sendOutcome t s = s.
Proof.
  intros A. induction t as [|e t IH]; [reflexivity|].
  cbn [run fold_left]. rewrite step_not_live.
  - exact IH.
  - rewrite A. apply orb_true_r.
Qed.

(** X4.  When creating the socket throws, the route logs the error,
    removes the session directory it had just made, and answers 500 once.
    No handler and no timer was registered, so nothing that happens later
    changes the session; paths outside the session directory are left on
    disk. *)
Theorem route_initialization_failure :
  forall (eval : string -> string) (e : Js.Error) (fs0 : Fs.t) (t : list Event),
    let s := route eval (Js.Rejected e) fs0 in
    resWrites s
    = [{| status := 500; body := ErrorBody "Failed to start WhatsApp session" |}]
    /\ console s = [LogInitError e; LogSessionRemoved (sessionDir s)]
    /\ Fs.existsSync (sessionDir s) (fs s) = false
    /\ (forall q, Fs.within (sessionDir s) q = false ->
                  Fs.existsSync q fs0 = true -> Fs.existsSync q (fs s) = true)
    /\ attached s = false
    /\ timers s = []
    /\ run loggedOut jidNormalizedUser toDataURL sendOutcome t s = s.
Proof.
  intros eval e fs0 t s.
  destruct (newSession_fs eval fs0) as (_ & D & K & _). cbv zeta in D, K.
  assert (F : console (newSession eval fs0) = []
              /\ resWrites (newSession eval fs0) = []
              /\ attached (newSession eval fs0) = false
              /\ timers (newSession eval fs0) = [])
    by (repeat split; reflexivity).
  subst s. unfold route.
  generalize dependent (newSession eval fs0).
  intros s0 D K (F1 & F2 & F3 & F4).
  cbv beta iota zeta delta [exec tryCatch throw bind gets log modify when].
  cbn [sessionDir set_console]. rewrite removeSession_run.
  cbn [fs set_console]. rewrite D.
  cbn. rewrite F1, F2. cbn. unfold res_json. cbn. rewrite F2. cbn.
  rewrite ?F1, ?F2, ?F3, ?F4.
  split; [reflexivity|]. split; [reflexivity|].
  split; [apply existsSync_rmSync|].
  split.
  { intros q W H.
    change (Fs.existsSync q (Fs.rmSync (sessionDir s0) (fs s0)) = true).
    unfold Fs.rmSync. rewrite existsSync_filter, W, andb_true_r.
    now apply K. }
  split; [reflexivity|]. split; [reflexivity|].
  apply run_not_attached. exact F3.
Qed.

(** ** The first code on an open response *)

(** X5.  A session that has shown no code and has not answered yet is sent
    a pairing code, and the rendering succeeds: when it settles the response
    is the 200 answer with the image, the session id, the fixed message and
    instructions; the flag is set, no handler is left waiting, the two log
    lines are written, and the disk, the socket and the timers are as
    before. *)
Theorem first_code_is_answered :
  forall (s : Session) (u : Update) (code img : string),
    attached s = true -> crashed s = false ->
    qrSent s = false -> headersSent s = false -> awaiting s = [] ->
    qr u = Some code -> code <> EmptyString -> connection u = None ->
    toDataURL code = Js.Fulfilled img ->
    let s' := run loggedOut jidNormalizedUser toDataURL sendOutcome
                [ConnectionUpdate u; QrSettled] s in
    resWrites s'
    = [{| status := 200;
          body := QrBody true img (sId s) qrMessage qrInstructions |}]
    /\ qrSent s' = true
    /\ awaiting s' = []
    /\ rendered s' = rendered s ++ [code]
    /\ console s' = console s ++ [LogTerminalQr code; LogNewQr]
    /\ crashed s' = false
    /\ fs s' = fs s /\ sock s' = sock s /\ timers s' = timers s
    /\ connectionSuccess s' = connectionSuccess s.
Proof.
  intros s u code img A C S H Aw Hq Hne Hc Hd s'. subst s'.
  assert (T : Js.truthy (qr u) = true).
  { rewrite Hq. cbn. destruct (String.eqb_spec code EmptyString);
      [contradiction | reflexivity]. }
  cbn in H. destruct (resWrites s) eqn:W; [|discriminate].
  cbn [run fold_left].
  rewrite step_live_update by now rewrite A, C.
  rewrite T, S. cbn [andb negb].
  unfold step. cbn [crashed attached awaiting set_awaiting set_rendered set_qrSent].
  rewrite A, C, Aw. cbn [orb negb app].
  unfold resumeConnectionUpdate, qrBlock, afterQr, openBranch, closeBranch.
  rewrite Hq, Hc. cbn [value]. rewrite Hd.
  unfold_js. rewrite W. cbn. rewrite ?W. cbn.
  unfold resStatus. cbn. rewrite ?W. cbn.
  rewrite <- ?app_assoc.
  repeat split; try reflexivity; assumption.
Qed.

(** ** Completion of the handler *)

Lemma closeBranch_normal (u : Update) (s : Session) :
  fst (closeBranch loggedOut u s) = Normal tt.
Proof. unfold closeBranch. js_auto. Qed.

Lemma afterQr_normal (u : Update) (s : Session) :
  fst (afterQr loggedOut jidNormalizedUser sendOutcome u s) = Normal tt.
Proof.
  unfold afterQr, bind. pose proof (openBranch_normal u s) as O.
  destruct (openBranch jidNormalizedUser sendOutcome u s) as [c s1].
  cbn in O. subst c. apply closeBranch_normal.
Qed.

(** X6.  A rendering that succeeds after the response was sent (the
    connection was closed, or the route timed out, while the image was
    being made).  The [res.json] of line 81 is still called and raises; the
    call sits in the try block, so the catch logs the error as a failed QR
    generation and, the headers being sent, writes nothing more.  The
    handler then goes on to its [open] and [close] branches. *)
Theorem late_qr_answer_is_caught :
  forall (code img : string) (s : Session),
    toDataURL code = Js.Fulfilled img ->
    headersSent s = true ->
    let r := qrBlock toDataURL code s in
    fst r = Normal tt
    /\ resWrites (snd r)
       = resWrites s
         ++ [{| status := resStatus s;
                body := QrBody true img (sId s) qrMessage qrInstructions |}]
    /\ console (snd r)
       = console s
         ++ [LogTerminalQr code; LogNewQr; LogQrFailed headersSentError]
    /\ (forall u, qr u = Some code ->
          runAsync (resumeConnectionUpdate loggedOut jidNormalizedUser
                      toDataURL sendOutcome u) s
          = runAsync (afterQr loggedOut jidNormalizedUser sendOutcome u)
              (snd r)).
Proof.
  intros code img s Hd H r. subst r.
  split; [|split; [|split]].
  - apply (proj1 (qrBlock_effect code s)).
  - pose proof (qrBlock_effect code s) as (_ & _ & _ & _ & _ & _ & _ & W).
    cbv zeta in W. rewrite Hd in W. exact W.
  - cbn in H. unfold qrBlock. rewrite Hd.
    destruct (resWrites s) as [|r0 l] eqn:W; [discriminate|].
    unfold_js. rewrite ?W. cbn. rewrite ?W. cbn.
    now rewrite <- !app_assoc.
  - intros u Hq. unfold resumeConnectionUpdate, runAsync, bind.
    rewrite Hq. cbn [value].
    pose proof (qrBlock_effect code s) as (N & _). cbv zeta in N.
    destruct (qrBlock toDataURL code s) as [c sx]. cbn [fst snd] in N |- *.
    now subst c.
Qed.

(** X7.  The four cases of the 60-second timer.  Once paired it does
    nothing.  Unpaired with a code shown it writes nothing, ends the socket
    and removes the directory.  Unpaired with no code and an open response
    it answers 408 and does the same.  Unpaired with no code and a response
    already sent, the write of 408 throws: the socket is not ended and the
    disk is not touched. *)
Theorem timeout_callback_cases :
  forall s : Session,
    let r := onTimeout s in
    let timedOut := {| status := 408;
                       body := ErrorBody "QR timeout – no scan detected" |} in
    (connectionSuccess s = true -> r = (Normal tt, s))
    /\ (connectionSuccess s = false -> qrSent s = true ->
        fst r = Normal tt
        /\ resWrites (snd r) = resWrites s
        /\ ended (sock (snd r)) = true
        /\ Fs.existsSync (sessionDir s) (fs (snd r)) = false)
    /\ (connectionSuccess s = false -> qrSent s = false ->
        headersSent s = false ->
        fst r = Normal tt
        /\ resWrites (snd r) = [timedOut]
        /\ ended (sock (snd r)) = true
        /\ Fs.existsSync (sessionDir s) (fs (snd r)) = false)
    /\ (connectionSuccess s = false -> qrSent s = false ->
        headersSent s = true ->
        fst r = Thrown headersSentError
        /\ resWrites (snd r) = resWrites s ++ [timedOut]
        /\ sock (snd r) = sock s
        /\ fs (snd r) = fs s).
Proof.
  intros s r timedOut. subst r timedOut. split; [|split; [|split]].
  - apply onTimeout_paired.
  - intros C S.
    destruct (onTimeout_unpaired s C (or_intror S)) as (N & E & D & W).
    rewrite S in W. auto.
  - intros C S H.
    destruct (onTimeout_unpaired s C (or_introl H)) as (N & E & D & W).
    rewrite S in W. auto.
  - intros C S H. cbn in H. unfold onTimeout.
    destruct (resWrites s) eqn:W; [discriminate|].
    repeat split; js_auto.
Qed.

(** ** After pairing *)

Lemma step_keeps_connectionSuccess (e : Event) (s : Session) :
  connectionSuccess s = true ->
  connectionSuccess
    (step loggedOut jidNormalizedUser toDataURL sendOutcome e s) = true.
Proof.
  intros C. unfold step.
  destruct (crashed s || negb (attached s)); [assumption|].
  destruct e as [u| | |id|k].
  - unfold onConnectionUpdate.
    destruct (Js.truthy (qr u) && negb (qrSent s)) eqn:B.
    + cbv beta iota zeta delta [runAsync bind gets modify]. rewrite B.
      exact C.
    + replace (runAsync _ s)
        with (runAsync (afterQr loggedOut jidNormalizedUser sendOutcome u) s)
        by (cbv beta iota zeta delta [runAsync bind gets]; now rewrite B).
      now apply (proj1 (afterQr_paced u s)).
  - destruct (awaiting s) as [|u rest]; [assumption|].
    unfold resumeConnectionUpdate, runAsync, bind.
    pose proof (qrBlock_paced (value (qr u)) (set_awaiting rest s)) as Q.
    pose proof (qrBlock_effect (value (qr u)) (set_awaiting rest s)) as (N & _).
    cbv zeta in N.
    destruct (qrBlock toDataURL (value (qr u)) (set_awaiting rest s)) as [c s1].
    cbn in N, Q. subst c.
    apply (proj1 (afterQr_paced u s1)), (proj1 Q). exact C.
  - unfold runAsync, saveCreds. js_auto.
  - exact C.
  - destruct (nth_error (timers s) k) as [[cb d]|]; [|assumption].
    apply (proj1 (timerCallback_paced cb (set_timers (remove_nth k (timers s)) s)
                    (fun _ => C))).
    exact C.
Qed.

(** X8.  [connectionSuccess] is never reset, so once a session is paired
    the 60-second timer is harmless whenever it fires afterwards: it is
    taken off the pending timers and nothing else changes - no answer, the
    socket not ended, the directory kept. *)
Theorem paired_session_survives_timeout :
  forall (s : Session) (t : list Event),
    connectionSuccess s = true ->
    let s1 := run loggedOut jidNormalizedUser toDataURL sendOutcome t s in
    connectionSuccess s1 = true
    /\ (forall k d,
          crashed s1 = false -> attached s1 = true ->
          nth_error (timers s1) k = Some (CbTimeout, d) ->
          step loggedOut jidNormalizedUser toDataURL sendOutcome (TimerFires k) s1
          = set_timers (remove_nth k (timers s1)) s1).
Proof.
  intros s t C s1.
  assert (C1 : connectionSuccess s1 = true).
  { subst s1. revert s C. induction t as [|e t IH]; intros s C; [exact C|].
    cbn [run fold_left]. apply IH. now apply step_keeps_connectionSuccess. }
  split; [exact C1|].
  intros k d Cr A Hn. unfold step. rewrite Cr, A, Hn. cbn [orb negb].
  unfold runTimer, timerCallback.
  now rewrite onTimeout_paired.
Qed.

(** ** The answer of a close event *)

Lemma closeBranch_writes (u : Update) (s : Session) :
  connection u = Some Close ->
  let s' := snd (closeBranch loggedOut u s) in
  resWrites s'
  = (if negb (connectionSuccess s) && negb (headersSent s)
     then [{| status := 500;
              body := ErrorBody "Connection failed or closed unexpectedly" |}]
     else resWrites s)
  /\ connectionSuccess s' = connectionSuccess s
  /\ qrSent s' = qrSent s
  /\ crashed s' = crashed s
  /\ awaiting s' = awaiting s.
Proof.
  intros Hc. unfold closeBranch. rewrite Hc.
  repeat split; js_auto.
Qed.

(** X9.  A [close] event answers 500 exactly when pairing has not
    succeeded and the response is still open, whatever the reason of the
    close; after pairing, or once the response was sent, it writes nothing.
    It never changes the two flags. *)
Theorem close_event_answers_only_unpaired_open :
  forall (s : Session) (u : Update),
    crashed s = false -> attached s = true ->
    connection u = Some Close ->
    Js.truthy (qr u) && negb (qrSent s) = false ->
    let s' := step loggedOut jidNormalizedUser toDataURL sendOutcome
                (ConnectionUpdate u) s in
    resWrites s'
    = (if negb (connectionSuccess s) && negb (headersSent s)
       then [{| status := 500;
                body := ErrorBody "Connection failed or closed unexpectedly" |}]
       else resWrites s)
    /\ connectionSuccess s' = connectionSuccess s
    /\ qrSent s' = qrSent s
    /\ crashed s' = false.
Proof.
  intros s u C A Hc Q s'. subst s'.
  rewrite step_live_update by now rewrite C, A.
  rewrite Q. unfold runAsync, afterQr, bind, openBranch. rewrite Hc.
  cbv beta iota delta [ret].
  pose proof (closeBranch_normal u s) as N.
  destruct (closeBranch_writes u s Hc) as (W & K1 & K2 & K3 & _).
  destruct (closeBranch loggedOut u s) as [c sx]. cbn [fst snd] in N, W, K1, K2, K3.
  subst c. split; [exact W|]. repeat split; congruence.
Qed.

(** ** How often the response is written *)

Lemma afterQr_writes (u : Update) (s : Session) :
  let s' := runAsync (afterQr loggedOut jidNormalizedUser sendOutcome u) s in
  resWrites s' = resWrites s
  \/ (headersSent s = false /\ exists r, resWrites s' = resWrites s ++ [r]).
Proof.
  cbv zeta. destruct (headersSent s) eqn:H.
  { left. now apply afterQr_resWrites_sent. }
  pose proof (afterQr_normal u s) as N.
  unfold runAsync. unfold afterQr, bind in *.
  pose proof (openBranch_resWrites u s) as O.
  pose proof (openBranch_normal u s) as ON.
  destruct (openBranch jidNormalizedUser sendOutcome u s) as [c s1].
  cbn in O, ON. subst c.
  destruct (connection u) as [[| |]|] eqn:Hc.
  1,2,4: left; unfold closeBranch in *; rewrite Hc in *; cbn; exact O.
  destruct (closeBranch_writes u s1 Hc) as (W & _).
  destruct (closeBranch loggedOut u s1) as [c s2]. cbn [fst snd] in N, W.
  subst c. cbn [fst snd].
  rewrite W. destruct (negb (connectionSuccess s1) && negb (headersSent s1)).
  - right. split; [reflexivity|]. cbn in H.
    destruct (resWrites s); [|discriminate]. eexists. reflexivity.
  - left. exact O.
Qed.

Lemma timerCallback_writes (cb : TimerCb) (s : Session) :
  cb <> CbTimeout ->
  resWrites (snd (timerCallback jidNormalizedUser sendOutcome cb s)) = resWrites s.
Proof.
  intros N. destruct cb; unfold timerCallback, onCleanup.
  - cbv beta iota zeta delta [bind gets].
    destruct (sendWelcomeMessages_frame (sessionDir s) None s) as (_ & F & _).
    unfold sameButSockTimersConsole in F. now destruct F as (_ & _ & _ & _ & _ & F & _).
  - reflexivity.
  - now elim N.
  - js_auto.
Qed.

Lemma onTimeout_writes (s : Session) :
  let r := onTimeout s in
  (fst r = Normal tt
   /\ (resWrites (snd r) = resWrites s
       \/ (headersSent s = false /\ exists x, resWrites (snd r) = resWrites s ++ [x])))
  \/ (fst r = Thrown headersSentError
      /\ qrSent s = false
      /\ exists x, resWrites (snd r) = resWrites s ++ [x]).
Proof.
  cbv zeta. destruct (connectionSuccess s) eqn:C.
  { left. rewrite (onTimeout_paired s C). auto. }
  destruct (qrSent s) eqn:S.
  { left. destruct (onTimeout_unpaired s C (or_intror S)) as (N & _ & _ & W).
    rewrite S in W. auto. }
  destruct (headersSent s) eqn:H.
  - right. cbn in H. unfold onTimeout.
    destruct (resWrites s) as [|r0 l0] eqn:W; [discriminate|].
    unfold_js. rewrite ?C, ?S, ?W. cbn. rewrite ?C, ?S, ?W. cbn.
    repeat split. eexists. reflexivity.
  - left. destruct (onTimeout_unpaired s C (or_introl H)) as (N & _ & _ & W).
    rewrite S in W. split; [assumption|]. right. split; [reflexivity|].
    cbn in H. destruct (resWrites s); [|discriminate].
    eexists. rewrite W. reflexivity.
Qed.

Lemma runTimer_resWrites (m : M unit) (s : Session) :
  resWrites (runTimer m s) = resWrites (snd (m s)).
Proof. unfold runTimer. now destruct (m s) as [[a|e] s1]. Qed.

(** One turn of the event loop calls [res.json] at most once, and a call
    on a response already sent is either the timer's, which ends the
    process, or the answer of the handler that was waiting for its image. *)
Lemma step_writes (e : Event) (s : Session) :
  let s' := step loggedOut jidNormalizedUser toDataURL sendOutcome e s in
  resWrites s' = resWrites s
  \/ exists r,
       resWrites s' = resWrites s ++ [r]
       /\ (headersSent s = true ->
           (crashed s' = true /\ qrSent s = false)
           \/ (isQr r = true /\ qrSent s' = qrSent s
               /\ exists u, awaiting s = u :: awaiting s')).
Proof.
  cbv zeta.
  destruct (crashed s || negb (attached s)) eqn:L.
  { left. now rewrite step_not_live. }
  destruct e as [u| | |id|k].
  - rewrite step_live_update by assumption.
    destruct (Js.truthy (qr u) && negb (qrSent s)); [now left|].
    destruct (afterQr_writes u s) as [E|(H & r & E)]; [now left|].
    right. exists r. split; [exact E|]. intros H'. congruence.
  - unfold step. rewrite L. destruct (awaiting s) as [|u rest] eqn:A; [now left|].
    pose proof (qrBlock_effect (value (qr u)) (set_awaiting rest s))
      as (N & _ & _ & E3 & _ & E5 & _ & W).
    cbv zeta in N, E3, E5, W.
    assert (R : runAsync (resumeConnectionUpdate loggedOut jidNormalizedUser
                            toDataURL sendOutcome u) (set_awaiting rest s)
                = runAsync (afterQr loggedOut jidNormalizedUser sendOutcome u)
                    (snd (qrBlock toDataURL (value (qr u)) (set_awaiting rest s)))).
    { unfold resumeConnectionUpdate, runAsync, bind.
      destruct (qrBlock toDataURL (value (qr u)) (set_awaiting rest s)) as [c sx].
      cbn [fst] in N. now subst c. }
    rewrite R. clear R N.
    set (s1 := snd (qrBlock toDataURL (value (qr u)) (set_awaiting rest s))) in *.
    pose proof (runAsync_quiet _ _ (afterQr_quiet u s1))
      as (_ & _ & Q3 & _ & Q5 & _).
    cbn [qrSent awaiting set_awaiting] in E3, E5.
    cbn [resWrites headersSent sId set_awaiting] in W.
    destruct (toDataURL (value (qr u))) as [img|x].
    + assert (H1 : headersSent s1 = true)
        by (cbn; rewrite W; now destruct (resWrites s)).
      rewrite (afterQr_resWrites_sent u s1 H1), W.
      right. eexists. split; [reflexivity|].
      intros _. right. split; [reflexivity|]. split; [congruence|].
      exists u. congruence.
    + destruct W as [W _]. destruct (resWrites s) eqn:RW.
      * assert (H1 : headersSent s1 = true) by (cbn; now rewrite W).
        rewrite (afterQr_resWrites_sent u s1 H1), W.
        right. eexists. split; [reflexivity|]. cbn. rewrite RW. discriminate.
      * assert (H1 : headersSent s1 = true) by (cbn; now rewrite W).
        rewrite (afterQr_resWrites_sent u s1 H1), W. now left.
  - left. unfold step. rewrite L. unfold runAsync, saveCreds. js_auto.
  - left. unfold step. now rewrite L.
  - unfold step. rewrite L.
    destruct (nth_error (timers s) k) as [[cb d]|]; [|now left].
    destruct cb.
    1,2,4: left; rewrite runTimer_resWrites, timerCallback_writes;
           [reflexivity | discriminate].
    unfold timerCallback, runTimer.
    destruct (onTimeout_writes (set_timers (remove_nth k (timers s)) s))
      as [(N & [E|(H & x & E)])|(N & S & x & E)];
      destruct (onTimeout (set_timers (remove_nth k (timers s)) s)) as [c s1];
      cbn [fst snd resWrites qrSent headersSent set_timers] in *; subst c.
    + now left.
    + right. exists x. split; [exact E|]. intros H'.
      cbn in H, H'. congruence.
    + right. exists x. split; [exact E|]. intros _. left. now split.
Qed.

Lemma run_writes_append (t : list Event) :
  forall s : Session,
    exists more,
      resWrites (run loggedOut jidNormalizedUser toDataURL sendOutcome t s)
      = resWrites s ++ more.
Proof.
  induction t as [|e t IH]; intros s; cbn [run fold_left].
  - exists []. now rewrite app_nil_r.
  - destruct (IH (step loggedOut jidNormalizedUser toDataURL sendOutcome e s))
      as [m Hm].
    fold (run loggedOut jidNormalizedUser toDataURL sendOutcome t
            (step loggedOut jidNormalizedUser toDataURL sendOutcome e s)).
    rewrite Hm.
    destruct (step_writes e s) as [E|(r & E & _)]; rewrite E.
    + now exists m.
    + exists (r :: m). now rewrite <- app_assoc.
Qed.

(** X10.  In every run of a session [res.json] is called at most twice,
    and what was written stays: later events only add to the calls, so the
    answer the client got is never replaced. *)
Theorem response_written_at_most_twice :
  forall (eval : string -> string) (init : Js.Settled (option string))
         (fs0 : Fs.t) (t t' : list Event),
    let start := route eval init fs0 in
    let s := run loggedOut jidNormalizedUser toDataURL sendOutcome t start in
    (List.length (resWrites s) <= 2)%nat
    /\ exists more,
         resWrites (run loggedOut jidNormalizedUser toDataURL sendOutcome
                      (t ++ t') start)
         = resWrites s ++ more.
Proof.
  intros eval init fs0 t t' start s. split.
  - assert (P : (List.length (resWrites s) <= 1)%nat
                \/ (List.length (resWrites s) = 2%nat
                    /\ (crashed s = true
                        \/ (qrSent s = true
                            /\ (1 <= countQr (resWrites s))%nat)))).
    { subst s. induction t as [|e t IH] using rev_ind.
      - left. pose proof (route_QrInv eval init fs0) as (_ & _ & _ & I4 & _).
        fold start in I4. cbn [run fold_left].
        unfold route in start.
        destruct init as [account|x].
        + cbn. lia.
        + subst start. unfold route.
          assert (F : resWrites (newSession eval fs0) = []) by reflexivity.
          generalize dependent (newSession eval fs0). intros s0 _ F.
          js_auto; rewrite ?F; cbn; lia.
      - rewrite run_app. cbn [run fold_left].
        pose proof (run_QrInv t None _ (route_QrInv eval init fs0))
          as (I1 & _ & I3 & I4 & _).
        fold start in I1, I3, I4.
        set (s := run loggedOut jidNormalizedUser toDataURL sendOutcome t start) in *.
        fold (run loggedOut jidNormalizedUser toDataURL sendOutcome t start).
        fold s.
        pose proof (step_writes e s) as SW. cbv zeta in SW.
        destruct IH as [Le|(Two & [Cr|(Sq & Cq)])].
        + destruct SW as [E|(r & E & Imp)]; [left; now rewrite E|].
          rewrite E, length_app. cbn [List.length].
          destruct (resWrites s) as [|r0 l] eqn:RW; [left; cbn; lia|].
          destruct l; [|cbn in Le; lia].
          right. split; [reflexivity|].
          assert (H : headersSent s = true) by (cbn; now rewrite RW).
          destruct (Imp H) as [(Cr & _)|(Qr & Sq & u & Aw)]; [now left|].
          right. split.
          * rewrite Sq. destruct (qrSent s) eqn:S; [reflexivity|].
            destruct (I1 eq_refl) as [_ N]. rewrite N in Aw. discriminate.
          * rewrite countQr_app. unfold countQr at 2. cbn [filter].
            rewrite Qr. cbn. lia.
        + rewrite step_not_live by (rewrite Cr; reflexivity). right. auto.
        + assert (Aw : awaiting s = []).
          { destruct (awaiting s); [reflexivity|]. cbn in I4. lia. }
          destruct (step_after_qrSent e s Sq) as [Sq' _].
          destruct SW as [E|(r & E & Imp)].
          * right. rewrite E. auto.
          * exfalso. assert (H : headersSent s = true).
            { cbn. destruct (resWrites s); [discriminate | reflexivity]. }
            destruct (Imp H) as [(_ & Sf)|(_ & _ & u & Au)]; congruence. }
    destruct P as [P|(P & _)]; lia.
  - subst s. rewrite run_app. apply run_writes_append.
Qed.

(** ** Onboarding and the rest of the session *)

(** X11.  Whatever the sends do, [sendWelcomeMessages] returns normally
    and stays within its own business: the response, the two flags, the
    disk and the socket's state are as before; it adds at most four
    messages to those sent, adds lines to the console, and schedules either
    nothing or the one cleanup timer of 15000 ms. *)
Theorem onboarding_is_self_contained :
  forall (dir : string) (fb : option string) (s : Session),
    let r := sendWelcomeMessages jidNormalizedUser sendOutcome dir fb s in
    let s' := snd r in
    fst r = Normal tt
    /\ resWrites s' = resWrites s
    /\ qrSent s' = qrSent s
    /\ connectionSuccess s' = connectionSuccess s
    /\ crashed s' = crashed s
    /\ fs s' = fs s
    /\ ended (sock s') = ended (sock s)
    /\ (exists sent, outbox (sock s') = outbox (sock s) ++ sent
                     /\ (List.length sent <= 4)%nat)
    /\ (exists lines, console s' = console s ++ lines)
    /\ (timers s' = timers s
        \/ timers s' = timers s ++ [(CbCleanup, 15000%Z)]).
Proof.
  intros dir fb s r s'. subst r s'.
  destruct (sendWelcomeMessages_frame dir fb s) as (N & F & Tm).
  unfold sameButSockTimersConsole in F.
  destruct F as (_ & _ & _ & F4 & F5 & F6 & F7 & _ & _ & F10 & _ & F12 & _).
  repeat (split; [assumption|]).
  destruct (Js.truthy (Js.or fb (resolveJid jidNormalizedUser (sock s)))) eqn:T.
  - destruct (sendWelcomeMessages_runs_in_order dir fb s T)
      as (O & _ & (mid & Cn) & _).
    unfold exec in O, Cn. split; [|split; [|exact Tm]].
    + eexists. split; [exact O|]. rewrite length_map.
      destruct (sendInOrder_prefix
                  (onboardingPayloads dir
                     (Fs.existsSync (credsPath_of dir) (fs s)))
                  (List.length (outbox (sock s)))) as [k Hk].
      rewrite Hk. rewrite length_firstn. unfold onboardingPayloads.
      destruct (Fs.existsSync (credsPath_of dir) (fs s)); cbn; lia.
    + eexists. exact Cn.
  - rewrite (sendWelcomeMessages_unknown_identity dir fb s T).
    cbn [snd sock console timers set_console].
    split; [|split; [|now left]].
    + exists []. rewrite app_nil_r. split; [reflexivity | cbn; lia].
    + eexists. reflexivity.
Qed.

(** ** The handler that waits for its image *)

Lemma runAsync_crashed (m : M unit) (s : Session) :
  crashed (runAsync m s) = crashed (snd (m s)).
Proof.
  unfold runAsync, exec, unhandledRejection.
  destruct (m s) as [[a|e] s1]; [reflexivity|].
  destruct (discarded e); reflexivity.
Qed.

Lemma runAsync_resume (u : Update) (s : Session) :
  runAsync (resumeConnectionUpdate loggedOut jidNormalizedUser toDataURL
              sendOutcome u) s
  = runAsync (afterQr loggedOut jidNormalizedUser sendOutcome u)
      (snd (qrBlock toDataURL (value (qr u)) s)).
Proof.
  pose proof (qrBlock_effect (value (qr u)) s) as (N & _). cbv zeta in N.
  unfold resumeConnectionUpdate, runAsync, bind.
  destruct (qrBlock toDataURL (value (qr u)) s) as [c sx].
  cbn [fst] in N. now subst c.
Qed.

Lemma openBranch_crashed (u : Update) (s : Session) :
  crashed (snd (openBranch jidNormalizedUser sendOutcome u s)) = crashed s.
Proof.
  unfold openBranch.
  destruct (connection u) as [[| |]|]; try reflexivity.
  cbv beta iota zeta delta [bind gets modify log setTimeout].
  cbn [sock sessionDir set_console set_connectionSuccess].
  destruct (negb _); [reflexivity|].
  match goal with
  | |- context [sendWelcomeMessages _ _ ?d ?f ?x] =>
      destruct (sendWelcomeMessages_frame d f x) as (_ & F & _)
  end.
  unfold sameButSockTimersConsole in F.
  destruct F as (_ & _ & _ & _ & _ & _ & _ & _ & _ & F & _). now rewrite F.
Qed.

Lemma closeBranch_crashed (u : Update) (s : Session) :
  crashed (snd (closeBranch loggedOut u s)) = crashed s.
Proof. unfold closeBranch. js_auto. Qed.

Lemma afterQr_crashed (u : Update) (s : Session) :
  crashed (runAsync (afterQr loggedOut jidNormalizedUser sendOutcome u) s)
  = crashed s.
Proof.
  rewrite runAsync_crashed. unfold afterQr, bind.
  pose proof (openBranch_crashed u s) as O.
  destruct (openBranch jidNormalizedUser sendOutcome u s) as [[a|x] s1];
    cbn in O |- *; [|exact O].
  rewrite closeBranch_crashed. exact O.
Qed.

(** A timer callback that throws has written to a response already sent. *)
Lemma timerCallback_crashes (cb : TimerCb) (s : Session) :
  let r := timerCallback jidNormalizedUser sendOutcome cb s in
  crashed (snd r) = crashed s
  /\ (fst r = Normal tt \/ headersSent (snd r) = true).
Proof.
  cbv zeta. destruct cb; unfold timerCallback, onTimeout, onCleanup.
  - cbv beta iota zeta delta [bind gets].
    destruct (sendWelcomeMessages_frame (sessionDir s) None s) as (N & F & _).
    unfold sameButSockTimersConsole in F.
    destruct F as (_ & _ & _ & _ & _ & _ & _ & _ & _ & F & _). auto.
  - split; [reflexivity | now left].
  - js_auto; (split; [reflexivity | first [now left | now right]]).
  - js_auto; (split; [reflexivity | now left]).
Qed.

Lemma step_crash_sent (e : Event) (s : Session) :
  (crashed s = true -> headersSent s = true) ->
  let s' := step loggedOut jidNormalizedUser toDataURL sendOutcome e s in
  crashed s' = true -> headersSent s' = true.
Proof.
  intros H. cbv zeta.
  destruct (crashed s || negb (attached s)) eqn:L.
  { now rewrite step_not_live. }
  assert (C : crashed s = false) by (now apply orb_false_iff in L).
  destruct e as [u| | |id|k].
  - rewrite step_live_update by assumption.
    destruct (Js.truthy (qr u) && negb (qrSent s)).
    + cbn. congruence.
    + rewrite afterQr_crashed. congruence.
  - unfold step. rewrite L. destruct (awaiting s) as [|u rest]; [congruence|].
    rewrite runAsync_resume, afterQr_crashed.
    pose proof (qrBlock_effect (value (qr u)) (set_awaiting rest s))
      as (_ & _ & _ & _ & _ & _ & E & _).
    cbv zeta in E. rewrite E. cbn. congruence.
  - unfold step. rewrite L, runAsync_crashed.
    unfold saveCreds. js_auto.
  - unfold step. rewrite L. cbn. congruence.
  - unfold step. rewrite L.
    destruct (nth_error (timers s) k) as [[cb d]|]; [|congruence].
    destruct (timerCallback_crashes cb (set_timers (remove_nth k (timers s)) s))
      as (E & N).
    unfold runTimer.
    destruct (timerCallback jidNormalizedUser sendOutcome cb
                (set_timers (remove_nth k (timers s)) s)) as [[a|x] s1];
      cbn in E, N |- *.
    + congruence.
    + intros _. destruct N as [N|N]; [discriminate | exact N].
Qed.

Lemma run_crash_sent (t : list Event) :
  forall s : Session,
    (crashed s = true -> headersSent s = true) ->
    let s' := run loggedOut jidNormalizedUser toDataURL sendOutcome t s in
    crashed s' = true -> headersSent s' = true.
Proof.
  induction t as [|e t IH]; intros s H; simpl; [exact H|].
  apply IH. now apply step_crash_sent.
Qed.

Lemma route_not_crashed (eval : string -> string)
      (init : Js.Settled (option string)) (fs0 : Fs.t) :
  crashed (route eval init fs0) = false.
Proof.
  unfold route.
  assert (F : crashed (newSession eval fs0) = false) by reflexivity.
  generalize dependent (newSession eval fs0). intros s0 F.
  destruct init as [account|e]; js_auto.
Qed.

(** While the response is open the process has not been ended. *)
Lemma open_response_not_crashed (eval : string -> string)
      (init : Js.Settled (option string)) (fs0 : Fs.t) (t : list Event) :
  let s := run loggedOut jidNormalizedUser toDataURL sendOutcome t
             (route eval init fs0) in
  headersSent s = false -> crashed s = false.
Proof.
  intros s H. destruct (crashed s) eqn:C; [|reflexivity].
  pose proof (run_crash_sent t (route eval init fs0)) as R.
  cbv zeta in R. fold s in R. rewrite R in H; [discriminate| |exact C].
  rewrite route_not_crashed. discriminate.
Qed.

(** Once the flag is set, every event but the settling of the rendering
    leaves the waiting handler where it is. *)
Lemma step_quiet (e : Event) (s : Session) :
  qrSent s = true -> e <> QrSettled ->
  quiet s (step loggedOut jidNormalizedUser toDataURL sendOutcome e s).
Proof.
  intros S N.
  destruct (crashed s || negb (attached s)) eqn:L.
  { rewrite step_not_live by assumption. apply quiet_refl. }
  destruct e as [u| | |id|k].
  - rewrite step_live_update by assumption.
    rewrite S, andb_false_r. apply runAsync_quiet, afterQr_quiet.
  - now elim N.
  - unfold step. rewrite L. apply runAsync_quiet, saveCreds_quiet.
  - unfold step. rewrite L. unfold quiet. cbn. repeat split; auto.
    exists []. split; [now rewrite app_nil_r | constructor].
  - unfold step. rewrite L.
    destruct (nth_error (timers s) k) as [[cb d]|]; [|apply quiet_refl].
    eapply quiet_trans; [|apply runTimer_quiet, timerCallback_quiet].
    unfold quiet. cbn. repeat split; auto.
    exists []. split; [now rewrite app_nil_r | constructor].
Qed.

Lemma run_quiet (t : list Event) :
  forall s : Session,
    qrSent s = true -> ~ In QrSettled t ->
    quiet s (run loggedOut jidNormalizedUser toDataURL sendOutcome t s).
Proof.
  induction t as [|e t IH]; intros s S N; simpl; [apply quiet_refl|].
  assert (Q : quiet s (step loggedOut jidNormalizedUser toDataURL sendOutcome e s)).
  { apply step_quiet; [exact S|]. intros ->. apply N. now left. }
  eapply quiet_trans; [exact Q|]. apply IH.
  - destruct Q as (_ & _ & Q3 & _). congruence.
  - intros H. apply N. now right.
Qed.

(** The settling of the rendering in a live session: the handler that
    waited calls [res.json] with the image, or, when the rendering failed,
    answers 500 on a response still open. *)
Lemma step_settle (u : Update) (rest : list Update) (s : Session) :
  crashed s = false -> attached s = true -> awaiting s = u :: rest ->
  let s' := step loggedOut jidNormalizedUser toDataURL sendOutcome QrSettled s in
  sId s' = sId s /\ awaiting s' = rest
  /\ match toDataURL (value (qr u)) with
     | Js.Fulfilled img =>
         resWrites s'
         = resWrites s ++ [{| status := resStatus s; body := qrBody img (sId s) |}]
     | Js.Rejected e =>
         resWrites s' = if headersSent s then resWrites s else [qrFailure]
     end.
Proof.
  intros C A Aw. cbv zeta. unfold step. rewrite C, A, Aw. cbn [orb negb].
  rewrite runAsync_resume.
  pose proof (qrBlock_effect (value (qr u)) (set_awaiting rest s))
    as (_ & E1 & _ & _ & _ & E5 & _ & W).
  cbv zeta in E1, E5, W.
  set (s1 := snd (qrBlock toDataURL (value (qr u)) (set_awaiting rest s))) in *.
  pose proof (runAsync_quiet _ _ (afterQr_quiet u s1))
    as (Q1 & _ & _ & _ & Q5 & _).
  cbn [sId awaiting set_awaiting] in E1, E5.
  cbn [resWrites headersSent sId set_awaiting] in W.
  change (resStatus (set_awaiting rest s)) with (resStatus s) in W.
  split; [congruence|]. split; [congruence|].
  destruct (toDataURL (value (qr u))) as [img|x].
  - rewrite afterQr_resWrites_sent; [exact W|].
    cbn. rewrite W. now destruct (resWrites s).
  - destruct W as [W _].
    rewrite afterQr_resWrites_sent; [exact W|].
    cbn. rewrite W. now destruct (resWrites s).
Qed.

(** *** C4 *)

(** C4.  In every run of a session at most one code is given to the
    renderer and at most one call of [res.json] carries a code.  Such a
    call carries the image of the first code the session was sent, with the
    session id, the fixed message and instructions, and when it is the
    answer the client receives its status is 200.  Once the flag is set a
    later pairing-code event changes nothing: an event that only carries a
    code leaves the session as it is, and an event that carries more is
    handled as if it carried no code.  The first pairing-code event of a
    live session does render and answer: its code is given to the renderer
    and its handler waits; when the rendering has produced an image and
    settles, the handler calls [res.json] with that image, which on a
    response still open is the one answer of the session. *)
Theorem pairing_code_answered_at_most_once :
  forall (eval : string -> string) (init : Js.Settled (option string))
         (fs0 : Fs.t) (t : list Event),
    let s := run loggedOut jidNormalizedUser toDataURL sendOutcome t
               (route eval init fs0) in
    (List.length (rendered s) <= 1)%nat
    /\ (countQr (resWrites s) <= 1)%nat
    /\ (forall code, In code (rendered s) -> firstCode t = Some code)
    /\ (forall r, In r (resWrites s) -> isQr r = true ->
          exists code img,
            firstCode t = Some code
            /\ toDataURL code = Js.Fulfilled img
            /\ body r = QrBody true img (sId s) qrMessage qrInstructions)
    /\ (forall r rest, resWrites s = r :: rest -> isQr r = true ->
          status r = 200%Z)
    /\ (attached s = true -> crashed s = false ->
        firstCode t <> None -> qrSent s = true)
    /\ (forall u, qrSent s = true -> connection u = None ->
          step loggedOut jidNormalizedUser toDataURL sendOutcome
            (ConnectionUpdate u) s = s)
    /\ (forall u, qrSent s = true ->
          step loggedOut jidNormalizedUser toDataURL sendOutcome
            (ConnectionUpdate u) s
          = step loggedOut jidNormalizedUser toDataURL sendOutcome
              (ConnectionUpdate {| qr := None; connection := connection u;
                                   statusCode := statusCode u |}) s)
    /\ (forall (u : Update) (code img : string) (t1 : list Event),
          attached s = true -> crashed s = false -> qrSent s = false ->
          qr u = Some code -> code <> EmptyString ->
          toDataURL code = Js.Fulfilled img ->
          ~ In QrSettled t1 ->
          let s1 := run loggedOut jidNormalizedUser toDataURL sendOutcome
                      (ConnectionUpdate u :: t1) s in
          let settled := step loggedOut jidNormalizedUser toDataURL sendOutcome
                           QrSettled s1 in
          let answer := QrBody true img (sId s) qrMessage qrInstructions in
          qrSent s1 = true
          /\ rendered s1 = [code]
          /\ awaiting s1 = [u]
          /\ (headersSent s1 = false ->
              resWrites settled = [{| status := 200; body := answer |}]
              /\ awaiting settled = [])
          /\ (crashed s1 = false ->
              resWrites settled
              = resWrites s1 ++ [{| status := resStatus s1; body := answer |}])).
Proof.
  intros eval init fs0 t s.
  pose proof (run_QrInv t None _ (route_QrInv eval init fs0)) as I.
  fold s in I. cbn [orElse] in I.
  destruct I as (I1 & I2 & I3 & I4 & I5 & I6 & I7 & I8).
  split; [assumption|]. split; [lia|]. split; [assumption|].
  split.
  { intros r Hr Hq. destruct (I6 r Hr Hq) as (q & img & Hin & Hd & Hb).
    exists q, img. auto. }
  split; [exact I8|].
  split.
  { intros A C N. destruct (qrSent s) eqn:S; [reflexivity|].
    elim N. auto. }
  split.
  { intros u S Hc. unfold step.
    destruct (crashed s || negb (attached s)); [reflexivity|].
    unfold onConnectionUpdate, runAsync, afterQr, openBranch, closeBranch.
    cbv beta iota zeta delta [bind gets ret].
    now rewrite S, andb_false_r, Hc. }
  split.
  { intros u S. unfold step.
    destruct (crashed s || negb (attached s)); [reflexivity|].
    unfold onConnectionUpdate.
    cbv beta iota zeta delta [runAsync bind gets].
    now rewrite S, andb_false_r. }
  intros u code img t1 A C S Hq Hne Hd Nq s1 settled answer.
  assert (T : Js.truthy (qr u) = true).
  { rewrite Hq. cbn. destruct (String.eqb_spec code EmptyString);
      [contradiction | reflexivity]. }
  destruct (I1 S) as [R0 A0].
  assert (NC : headersSent s1 = false -> crashed s1 = false).
  { unfold s1, s. rewrite <- run_app. apply open_response_not_crashed. }
  set (waiting := set_awaiting (awaiting s ++ [u])
                    (set_rendered (rendered s ++ [code]) (set_qrSent true s))).
  assert (E1 : s1 = run loggedOut jidNormalizedUser toDataURL sendOutcome t1
                      waiting).
  { unfold s1. cbn [run fold_left].
    rewrite step_live_update by now rewrite A, C.
    now rewrite T, S, Hq. }
  clearbody s1 s.
  destruct (run_quiet t1 waiting eq_refl Nq)
    as (Q1 & Q2 & Q3 & Q4 & Q5 & _).
  rewrite <- E1 in Q1, Q2, Q3, Q4, Q5. unfold waiting in Q1, Q2, Q3, Q4, Q5.
  cbn in Q1, Q2, Q3, Q4, Q5. rewrite R0 in Q4. rewrite A0 in Q5.
  cbn in Q4, Q5.
  assert (Settle : crashed s1 = false ->
            awaiting settled = []
            /\ resWrites settled
               = resWrites s1 ++ [{| status := resStatus s1; body := answer |}]).
  { intros C1.
    destruct (step_settle u [] s1 C1 (eq_trans Q2 A) Q5) as (_ & K & W).
    cbv zeta in K, W. rewrite Hq in W. cbn [value] in W. rewrite Hd in W.
    rewrite Q1 in W. split; [exact K | exact W]. }
  split; [exact Q3|]. split; [exact Q4|]. split; [exact Q5|].
  split.
  - intros H.
    destruct (Settle (NC H)) as (K & W). split; [|exact K].
    rewrite W. unfold resStatus. cbn in H.
    destruct (resWrites s1); [reflexivity | discriminate].
  - intros C1. now destruct (Settle C1).
Qed.

(** *** A rendering that fails *)

(** C10.  Take a session that is sent its first pairing code and whose
    rendering of that code throws.  The flag was set before the rendering
    started, so whatever happens afterwards no other code is rendered and
    no call of [res.json] ever carries a code.  Until the failed rendering
    settles the handler that was sent the code waits for it; when it
    settles, that handler answers 500 if the response is still open and
    writes nothing otherwise. *)
Theorem failed_rendering_suppresses_later_codes :
  forall (eval : string -> string) (init : Js.Settled (option string))
         (fs0 : Fs.t) (t0 t1 : list Event) (u : Update) (code : string)
         (err : Js.Error),
    let start := route eval init fs0 in
    let s0 := run loggedOut jidNormalizedUser toDataURL sendOutcome t0 start in
    let s1 := run loggedOut jidNormalizedUser toDataURL sendOutcome
                (t0 ++ ConnectionUpdate u :: t1) start in
    attached s0 = true -> crashed s0 = false -> qrSent s0 = false ->
    qr u = Some code -> code <> EmptyString ->
    toDataURL code = Js.Rejected err ->
    qrSent s1 = true
    /\ rendered s1 = [code]
    /\ (forall r, In r (resWrites s1) -> isQr r = false)
    /\ (~ In QrSettled t1 ->
        let settled := step loggedOut jidNormalizedUser toDataURL sendOutcome
                         QrSettled s1 in
        awaiting s1 = [u]
        /\ resWrites settled
           = (if headersSent s1
              then resWrites s1
              else [{| status := 500;
                       body := ErrorBody "Failed to generate QR" |}])
        /\ (crashed s1 = false -> awaiting settled = [])).
Proof.
  intros eval init fs0 t0 t1 u code err start s0 s1 A C S Hq Hne Hrej.
  assert (T : Js.truthy (qr u) = true).
  { rewrite Hq. cbn. destruct (String.eqb_spec code EmptyString); [contradiction|reflexivity]. }
  pose proof (run_QrInv t0 None _ (route_QrInv eval init fs0)) as I0.
  fold start s0 in I0. cbn [orElse] in I0.
  assert (F0 : firstCode t0 = None)
    by (destruct I0 as (_ & _ & _ & _ & _ & _ & I7 & _); auto).
  assert (R0 : rendered s0 = [] /\ awaiting s0 = [])
    by (destruct I0 as (I1 & _); now apply I1).
  destruct R0 as [R0 A0].
  pose proof (run_QrInv (t0 ++ ConnectionUpdate u :: t1) None _
                (route_QrInv eval init fs0)) as I1.
  fold start s1 in I1. cbn [orElse] in I1.
  rewrite firstCode_app, F0 in I1. cbn [orElse firstCode codeOf] in I1.
  rewrite T, Hq in I1. cbn [value orElse] in I1.
  assert (L : crashed s0 || negb (attached s0) = false) by now rewrite A, C.
  set (waiting := set_awaiting (awaiting s0 ++ [u])
                    (set_rendered (rendered s0 ++ [code])
                       (set_qrSent true s0))).
  assert (E1 : s1 = run loggedOut jidNormalizedUser toDataURL sendOutcome t1
                      waiting).
  { unfold s1. rewrite run_app. fold s0. cbn [run fold_left].
    rewrite step_live_update by assumption.
    now rewrite T, S, Hq. }
  assert (NC : crashed s1 = true -> headersSent s1 = true).
  { pose proof (run_crash_sent (t0 ++ ConnectionUpdate u :: t1) start) as R.
    cbv zeta in R. fold s1 in R. apply R.
    unfold start. rewrite route_not_crashed. discriminate. }
  clearbody s1 s0 start.
  destruct (run_after_qrSent t1 waiting eq_refl) as [S1 R1].
  rewrite <- E1 in S1, R1. unfold waiting in R1.
  cbn in R1. rewrite R0 in R1. cbn in R1.
  destruct I1 as (_ & J2 & _ & _ & _ & J6 & _).
  assert (NoQr : forall r, In r (resWrites s1) -> isQr r = false).
  { intros r Hr. destruct (isQr r) eqn:Q; [|reflexivity].
    destruct (J6 r Hr Q) as (q & img & Hin & Hd & _).
    specialize (J2 q Hin). injection J2 as <-. congruence. }
  split; [assumption|]. split; [assumption|]. split; [assumption|].
  intros Nq settled.
  destruct (run_quiet t1 waiting eq_refl Nq) as (_ & Q2 & _ & _ & Q5 & _).
  rewrite <- E1 in Q2, Q5. unfold waiting in Q2, Q5.
  cbn in Q2, Q5. rewrite A0 in Q5. cbn in Q5.
  split; [exact Q5|].
  destruct (crashed s1) eqn:C1.
  - assert (H : headersSent s1 = true) by now apply NC.
    split; [|discriminate].
    unfold settled. rewrite step_not_live by (now rewrite C1).
    now rewrite H.
  - destruct (step_settle u [] s1 C1 (eq_trans Q2 A) Q5) as (_ & K & W).
    cbv zeta in K, W. rewrite Hq in W. cbn [value] in W. rewrite Hrej in W.
    split; [exact W | intros _; exact K].
Qed.

End CallbackProperties.

(** * Concrete sessions *)

(** C1 (the code departs from the claim).  The claim wants exactly one
    write to the response.  When the connection closes before any code was
    emitted the close handler answers 500; the 60-second timer then finds
    [connectionSuccess] and [qrSent] both false and calls
    [res.status(408).json] on the response that was already sent: the timer
    has no [res.headersSent] test, unlike lines 95, 123 and 149.  The second
    write raises in the timer callback. *)
Theorem response_written_twice_after_early_close :
  let s := run Example.loggedOut Example.jidNormalizedUser Example.toDataURL
             Example.allSent Example.closedEarly Example.start in
  resWrites s
  = [ {| status := 500;
         body := ErrorBody "Connection failed or closed unexpectedly" |};
      {| status := 408; body := ErrorBody "QR timeout – no scan detected" |} ]
  /\ crashed s = true
  /\ wsConnects (sock s) = 1%nat.
Proof. vm_compute. repeat split; reflexivity. Qed.

(** C6 (the code departs from the claim).  The claim wants the socket
    ended and the session directory removed whenever pairing has not
    succeeded when the timer fires.  In the session above pairing never
    succeeded and no code was emitted, yet after the timer the client holds
    the 500 of the close handler, not a 408, the socket was not ended and
    the directory is still on disk: the write of line 138 raised before
    lines 141-142 were reached.  The cause is the one of C1. *)
Theorem timeout_cleanup_skipped_after_early_close :
  let s := run Example.loggedOut Example.jidNormalizedUser Example.toDataURL
             Example.allSent Example.closedEarly Example.start in
  connectionSuccess s = false
  /\ qrSent s = false
  /\ timers s = []
  /\ option_map status (hd_error (resWrites s)) = Some 500%Z
  /\ ended (sock s) = false
  /\ Fs.existsSync (sessionDir s) (fs s) = true.
Proof. vm_compute. repeat split; reflexivity. Qed.

(** C3, the claim as stated fails.  The account is known, the first send
    (the welcome image, there being no [creds.json]) is rejected: the error
    is logged and the other sends are skipped, but no cleanup timer exists
    afterwards, only the route's 60-second timer, which does nothing once
    [connectionSuccess] is set. *)
Lemma cleanup_not_scheduled_after_failed_send :
  let s := run Example.loggedOut Example.jidNormalizedUser Example.toDataURL
             Example.firstSendFails Example.pairedAtOnce Example.start in
  outbox (sock s) = [(Example.account, welcomeImage)]
  /\ In (LogWelcomeFailed Example.connectionClosed) (console s)
  /\ timers s = [(CbTimeout, 60000%Z)]
  /\ ~ In (CbCleanup, 15000%Z) (timers s)
  /\ (let s' := step Example.loggedOut Example.jidNormalizedUser
                  Example.toDataURL Example.firstSendFails (TimerFires 0) s in
      ended (sock s') = false
      /\ Fs.existsSync (sessionDir s') (fs s') = true).
Proof.
  vm_compute. repeat split; try reflexivity.
  - right. right. right. now left.
  - intros [H|[]]. discriminate H.
Qed.

(** C7 (the claim as stated).  The claim has the deferred attempt use a
    fallback identity.  The callback of line 106 is given the socket and
    the folder and no identity.  Here the connection opens before the
    account is known and the account is still unknown when the timer
    fires: the attempt sends nothing, logs that no identity was found and
    schedules nothing.  The same function, handed an identity to fall back
    on in the same state, sends the three messages. *)
Lemma delayed_onboarding_has_no_fallback_identity :
  let unknown := step Example.loggedOut Example.jidNormalizedUser
                   Example.toDataURL Example.allSent
                   (ConnectionUpdate Example.opened) Example.start in
  let s := step Example.loggedOut Example.jidNormalizedUser Example.toDataURL
             Example.allSent (TimerFires 1) unknown in
  connectionSuccess unknown = true
  /\ timers unknown = [(CbTimeout, 60000%Z); (CbDelayedWelcome, 5000%Z)]
  /\ outbox (sock s) = []
  /\ console s = [LogConnected; LogJidDelay; LogNoJid]
  /\ timers s = [(CbTimeout, 60000%Z)]
  /\ outbox (sock (exec (sendWelcomeMessages Example.jidNormalizedUser
                           Example.allSent (sessionDir unknown)
                           (Some Example.account)) unknown))
     = [(Example.account, welcomeImage); (Example.account, welcomeAudio);
        (Example.account, finalMessage)].
Proof. vm_compute. repeat split; reflexivity. Qed.

(** * Instances *)

Lemma close_event_logout_or_reconnect_witness :
  connection (Example.closed 401) = Some Close
  /\ Fs.existsSync (sessionDir Example.start)
       (fs (exec (closeBranch Example.loggedOut (Example.closed 401))
              Example.start)) = false
  /\ timers (exec (closeBranch Example.loggedOut (Example.closed 428))
               Example.start)
     = [(CbTimeout, 60000%Z); (CbReconnect, 3000%Z)].
Proof.
  split; [reflexivity|]. split.
  - destruct (close_event_logout_or_reconnect Example.loggedOut
                Example.jidNormalizedUser Example.toDataURL Example.allSent
                Example.start (Example.closed 401) eq_refl)
      as (_ & H & _).
    apply H. reflexivity.
  - destruct (close_event_logout_or_reconnect Example.loggedOut
                Example.jidNormalizedUser Example.toDataURL Example.allSent
                Example.start (Example.closed 428) eq_refl)
      as (_ & _ & H & _).
    apply H. discriminate.
Defined.

Lemma open_event_onboarding_once_witness :
  let known := step Example.loggedOut Example.jidNormalizedUser
                 Example.toDataURL Example.allSent
                 (UserKnown (Some Example.account)) Example.start in
  let unknown := step Example.loggedOut Example.jidNormalizedUser
                   Example.toDataURL Example.allSent
                   (ConnectionUpdate Example.opened) Example.start in
  let learnt := step Example.loggedOut Example.jidNormalizedUser
                  Example.toDataURL Example.allSent
                  (UserKnown (Some Example.account)) unknown in
  let welcome := [(Example.account, welcomeImage);
                  (Example.account, welcomeAudio);
                  (Example.account, finalMessage)] in
  connection Example.opened = Some Open
  /\ timers unknown = [(CbTimeout, 60000%Z); (CbDelayedWelcome, 5000%Z)]
  /\ outbox (sock unknown) = []
  /\ outbox (sock (exec (openBranch Example.jidNormalizedUser Example.allSent
                           Example.opened) known)) = welcome
  /\ outbox (sock (step Example.loggedOut Example.jidNormalizedUser
                     Example.toDataURL Example.allSent (TimerFires 1) learnt))
     = welcome
  /\ console (step Example.loggedOut Example.jidNormalizedUser
                Example.toDataURL Example.allSent (TimerFires 1) unknown)
     = [LogConnected; LogJidDelay; LogNoJid].
Proof.
  intros known unknown learnt welcome.
  split; [reflexivity|].
  destruct (open_event_onboarding_once Example.loggedOut
              Example.jidNormalizedUser Example.toDataURL Example.allSent
              Example.start Example.opened eq_refl)
    as (_ & Deferred & _ & _ & Handled).
  assert (U : unknown
              = exec (openBranch Example.jidNormalizedUser Example.allSent
                        Example.opened) Example.start)
    by (apply Handled; reflexivity).
  specialize (Deferred eq_refl). rewrite <- U in Deferred.
  split; [rewrite Deferred; reflexivity|].
  split; [rewrite Deferred; reflexivity|].
  destruct (open_event_onboarding_once Example.loggedOut
              Example.jidNormalizedUser Example.toDataURL Example.allSent
              known Example.opened eq_refl)
    as (_ & _ & AtOnce & Timer & _).
  split; [|split].
  - destruct (AtOnce eq_refl) as (_ & made & O & _ & _ & All).
    destruct (All (fun _ _ => eq_refl)) as [E _].
    rewrite E in O. exact O.
  - destruct (Timer learnt 1%nat 5000%Z eq_refl eq_refl eq_refl)
      as (_ & _ & Known).
    destruct (Known eq_refl) as (made & O & _ & _ & All).
    destruct (All (fun _ _ => eq_refl)) as [E _].
    rewrite E in O. exact O.
  - destruct (Timer unknown 1%nat 5000%Z eq_refl eq_refl eq_refl)
      as (_ & Still & _).
    rewrite (Still eq_refl). reflexivity.
Defined.

Lemma onboarding_cleanup_only_after_success_witness :
  Js.truthy (Js.or (Some Example.account)
               (resolveJid Example.jidNormalizedUser (sock Example.start))) = true
  /\ timers (exec (sendWelcomeMessages Example.jidNormalizedUser
                     Example.firstSendFails (sessionDir Example.start)
                     (Some Example.account)) Example.start)
     = timers Example.start.
Proof.
  split; [reflexivity|].
  destruct (onboarding_cleanup_only_after_success Example.jidNormalizedUser
              Example.firstSendFails (sessionDir Example.start)
              (Some Example.account) Example.start eq_refl)
    as (H & _).
  apply (H 0%nat Example.connectionClosed).
  - vm_compute. lia.
  - intros j Hj. lia.
  - reflexivity.
Defined.

Lemma failed_rendering_suppresses_later_codes_witness :
  let first := ConnectionUpdate (Example.pairingCode "2@abc") in
  let later := [QrSettled; ConnectionUpdate (Example.pairingCode "2@def");
                QrSettled] in
  let s1 := run Example.loggedOut Example.jidNormalizedUser
              Example.renderingFails Example.allSent
              (first :: later) Example.start in
  let waiting := run Example.loggedOut Example.jidNormalizedUser
                   Example.renderingFails Example.allSent
                   [first] Example.start in
  attached Example.start = true
  /\ crashed Example.start = false
  /\ qrSent Example.start = false
  /\ rendered s1 = ["2@abc"]
  /\ (forall r, In r (resWrites s1) -> isQr r = false)
  /\ awaiting waiting = [Example.pairingCode "2@abc"]
  /\ resWrites (step Example.loggedOut Example.jidNormalizedUser
                  Example.renderingFails Example.allSent QrSettled waiting)
     = [{| status := 500; body := ErrorBody "Failed to generate QR" |}].
Proof.
  intros first later s1 waiting.
  split; [reflexivity|]. split; [reflexivity|]. split; [reflexivity|].
  destruct (failed_rendering_suppresses_later_codes Example.loggedOut
              Example.jidNormalizedUser Example.renderingFails Example.allSent
              (fun e => e) (Js.Fulfilled None) [] [] later
              (Example.pairingCode "2@abc") "2@abc"
              (Js.Obj (Some "Input too long"))
              eq_refl eq_refl eq_refl eq_refl
              ltac:(discriminate) eq_refl)
    as (_ & R & N & _).
  split; [exact R|]. split; [exact N|].
  destruct (failed_rendering_suppresses_later_codes Example.loggedOut
              Example.jidNormalizedUser Example.renderingFails Example.allSent
              (fun e => e) (Js.Fulfilled None) [] [] []
              (Example.pairingCode "2@abc") "2@abc"
              (Js.Obj (Some "Input too long"))
              eq_refl eq_refl eq_refl eq_refl
              ltac:(discriminate) eq_refl)
    as (_ & _ & _ & Settle).
  destruct (Settle (fun H => H)) as (Aw & W & _).
  split; [exact Aw | exact W].
Defined.

Lemma pairing_code_answered_at_most_once_witness :
  let first := ConnectionUpdate (Example.pairingCode "2@abc") in
  let t := [first; QrSettled;
            ConnectionUpdate (Example.pairingCode "2@def"); QrSettled] in
  let s := run Example.loggedOut Example.jidNormalizedUser Example.toDataURL
             Example.allSent t Example.start in
  let waiting := run Example.loggedOut Example.jidNormalizedUser
                   Example.toDataURL Example.allSent [first] Example.start in
  (countQr (resWrites s) <= 1)%nat
  /\ (forall code, In code (rendered s) -> code = "2@abc")
  /\ rendered waiting = ["2@abc"]
  /\ awaiting waiting = [Example.pairingCode "2@abc"]
  /\ resWrites (step Example.loggedOut Example.jidNormalizedUser
                  Example.toDataURL Example.allSent QrSettled waiting)
     = [{| status := 200;
           body := QrBody true "data:image/png;base64,2@abc"
                     (sId Example.start) qrMessage qrInstructions |}].
Proof.
  intros first t s waiting.
  destruct (pairing_code_answered_at_most_once Example.loggedOut
              Example.jidNormalizedUser Example.toDataURL Example.allSent
              (fun e => e) (Js.Fulfilled None) [] t)
    as (_ & C & F & _).
  split; [exact C|].
  split; [intros code H; specialize (F code H); now injection F|].
  destruct (pairing_code_answered_at_most_once Example.loggedOut
              Example.jidNormalizedUser Example.toDataURL Example.allSent
              (fun e => e) (Js.Fulfilled None) [] [])
    as (_ & _ & _ & _ & _ & _ & _ & _ & First).
  destruct (First (Example.pairingCode "2@abc") "2@abc"
              "data:image/png;base64,2@abc" []
              eq_refl eq_refl eq_refl eq_refl ltac:(discriminate) eq_refl
              (fun H => H))
    as (_ & R & Aw & Open & _).
  split; [exact R|]. split; [exact Aw|].
  destruct (Open eq_refl) as [W _]. exact W.
Defined.

Lemma onboarding_after_pairing_in_order_witness :
  let s := run Example.loggedOut Example.jidNormalizedUser Example.toDataURL
             Example.allSent Example.pairedAtOnce Example.start in
  Forall (fun m => fst m <> EmptyString) (outbox (sock s))
  /\ outbox (sock (exec (sendWelcomeMessages Example.jidNormalizedUser
                           Example.allSent (sessionDir Example.start)
                           (Some Example.account)) Example.start))
     = [(Example.account, welcomeImage); (Example.account, welcomeAudio);
        (Example.account, finalMessage)].
Proof.
  intros s.
  destruct (onboarding_after_pairing_in_order Example.loggedOut
              Example.jidNormalizedUser Example.toDataURL Example.allSent)
    as (H & K).
  split; [apply (H (fun e => e) (Js.Fulfilled None) [] Example.pairedAtOnce)|].
  destruct (K (sessionDir Example.start) (Some Example.account) Example.start)
    as (_ & Known).
  destruct (Known eq_refl) as (made & O & _ & _ & All).
  destruct (All (fun _ _ => eq_refl)) as [E _].
  rewrite E in O. exact O.
Defined.

Lemma first_code_is_answered_witness :
  attached Example.start = true
  /\ crashed Example.start = false
  /\ qrSent Example.start = false
  /\ headersSent Example.start = false
  /\ awaiting Example.start = []
  /\ resWrites
       (run Example.loggedOut Example.jidNormalizedUser Example.toDataURL
          Example.allSent
          [ConnectionUpdate (Example.pairingCode "2@abc"); QrSettled]
          Example.start)
     = [{| status := 200;
           body := QrBody true "data:image/png;base64,2@abc"
                     (sId Example.start) qrMessage qrInstructions |}].
Proof.
  do 5 (split; [reflexivity|]).
  destruct (first_code_is_answered Example.loggedOut Example.jidNormalizedUser
              Example.toDataURL Example.allSent
              Example.start (Example.pairingCode "2@abc") "2@abc"
              "data:image/png;base64,2@abc"
              eq_refl eq_refl eq_refl eq_refl eq_refl eq_refl
              ltac:(discriminate) eq_refl eq_refl)
    as (H & _).
  exact H.
Defined.

Lemma paired_session_survives_timeout_witness :
  let paired := run Example.loggedOut Example.jidNormalizedUser
                  Example.toDataURL Example.allSent Example.pairedAtOnce
                  Example.start in
  connectionSuccess paired = true
  /\ connectionSuccess
       (run Example.loggedOut Example.jidNormalizedUser Example.toDataURL
          Example.allSent
          [ConnectionUpdate (Example.closed 428); TimerFires 0] paired)
     = true.
Proof.
  intros paired.
  assert (C : connectionSuccess paired = true) by (vm_compute; reflexivity).
  split; [exact C|].
  destruct (paired_session_survives_timeout Example.loggedOut
              Example.jidNormalizedUser Example.toDataURL Example.allSent
              paired [ConnectionUpdate (Example.closed 428); TimerFires 0] C)
    as (H & _).
  exact H.
Defined.

Lemma close_event_answers_only_unpaired_open_witness :
  crashed Example.start = false
  /\ attached Example.start = true
  /\ connection (Example.closed 428) = Some Close
  /\ resWrites
       (step Example.loggedOut Example.jidNormalizedUser Example.toDataURL
          Example.allSent (ConnectionUpdate (Example.closed 428)) Example.start)
     = [{| status := 500;
           body := ErrorBody "Connection failed or closed unexpectedly" |}].
Proof.
  do 3 (split; [reflexivity|]).
  destruct (close_event_answers_only_unpaired_open Example.loggedOut
              Example.jidNormalizedUser Example.toDataURL Example.allSent
              Example.start (Example.closed 428)
              eq_refl eq_refl eq_refl eq_refl)
    as (H & _).
  exact H.
Defined.

Lemma late_qr_answer_is_caught_witness :
  let answered := step Example.loggedOut Example.jidNormalizedUser
                    Example.toDataURL Example.allSent
                    (ConnectionUpdate (Example.closed 428)) Example.start in
  Example.toDataURL "2@abc" = Js.Fulfilled "data:image/png;base64,2@abc"
  /\ headersSent answered = true
  /\ console (snd (qrBlock Example.toDataURL "2@abc" answered))
     = console answered
       ++ [LogTerminalQr "2@abc"; LogNewQr; LogQrFailed headersSentError].
Proof.
  intros answered.
  split; [reflexivity|]. split; [reflexivity|].
  destruct (late_qr_answer_is_caught Example.loggedOut
              Example.jidNormalizedUser Example.toDataURL Example.allSent
              "2@abc" "data:image/png;base64,2@abc" answered
              eq_refl eq_refl)
    as (_ & _ & H & _).
  exact H.
Defined.
